(** * Daily NIFTY open values: the fetch, report and notify pipeline

    A shallow embedding of [SimpleStockBot] (Niftyopenvalues2.py) and the
    properties of its candidate-symbol resolver, its bar filter, its report
    builder and its bounded-retry sender.

    Conventions of the embedding.
    - A JSON number is the rational it denotes ([Q]); Python's [round(x, 2)]
      and the printing of a number are operations of the runtime interface.
    - A Python [dict] is an association list in insertion order.
    - The network, the clock and the iteration order of a [set] are the
      runtime: an abstract [world] threaded through every call that talks to
      it, so a server may answer the same request differently over time.
    - [time.sleep] and the calls of [session.get] and [session.post] are
      recorded in a log, in order. *)

From Stdlib Require Import List String Ascii ZArith QArith Bool Arith Lia.
From Stdlib Require Import Permutation DecimalString.
Import ListNotations.
Local Open Scope string_scope.
Local Open Scope list_scope.

(** ** Part I: the program *)

(** *** Responses of the quote endpoint *)

(** [indicators.quote[0]]: four arrays aligned with [timestamp], each entry a
    number or [null].  A key that is absent reads as the empty array
    ([quote_data.get('high', [])]). *)
Record quote_data := {
  quote_open : list (option Q);
  quote_high : list (option Q);
  quote_low : list (option Q);
  quote_close : list (option Q)
}.

(** [chart.result[0]].  [result.get('timestamp')] and
    [result.get('indicators', {}).get('quote')] are tested for truth, so an
    absent key, [null] and the empty array are all the empty list here. *)
Record chart_result := {
  result_timestamp : list Z;
  result_quote : list quote_data
}.

(** The body of a response with status 200. *)
Inductive response_body :=
| BadJson                                  (* response.json() raises, or the
                                              object lacks chart.result *)
| NoChart                                  (* 'chart' not in data *)
| Chart (result : list chart_result).      (* data['chart']['result'];
                                              null reads as [] *)

(** What [self.session.get(url, ...)] does. *)
Inductive get_outcome :=
| GetRaises                                           (* any exception *)
| GetResponse (status_code : Z) (body : response_body).

(** What [self.session.post(...)] does, by the handler that receives it. *)
Inductive post_outcome :=
| PostResponse (status_code : Z)
| PostConnectionError            (* requests.exceptions.ConnectionError *)
| PostTimeout                    (* requests.exceptions.Timeout *)
| PostUnexpected.                (* any other Exception *)

(** *** The runtime interface *)

Class Runtime := {
  world : Type;
  (** One call of [session.get] on a URL and one call of [session.post]
      of a message text, as the caller sees them.  What the adapter mounted
      by [create_session] does inside a call (it sends again, and waits, on
      the statuses 429, 500, 502, 503 and 504) is part of the call: the
      logs count calls of the library and the waits of this file, not
      transmissions on the wire. *)
  session_get : world -> string -> get_outcome * world;
  session_post : world -> string -> post_outcome * world;
  (** [datetime.now(ist).strftime("%d-%m-%Y %H:%M:%S IST")]. *)
  datetime_now : world -> string;
  (** [datetime.fromtimestamp(ts, tz=Asia/Kolkata).strftime('%Y-%m-%d')];
      [None] when the conversion raises (timestamp out of range). *)
  fromtimestamp_date : Z -> option string;
  (** [round(x, 2)] and [str(x)] on a number. *)
  round2 : Q -> Q;
  str_of_number : Q -> string;
  (** The order in which a [set] of strings is iterated; the argument lists
      the members of the set.  The order follows the hashes of the strings,
      whose seed is drawn when the interpreter starts: it is a datum of the
      runtime, and two runs of the program are two runtimes. *)
  set_iter : list string -> list string;
  set_iter_perm : forall l, Permutation l (set_iter l)
}.

(** *** Dictionaries *)

Definition dict (V : Type) := list (string * V).

Fixpoint dict_get {V} (k : string) (d : dict V) : option V :=
  match d with
  | [] => None
  | (k', v) :: rest => if String.eqb k' k then Some v else dict_get k rest
  end.

(** [d[k] = v]: an existing key keeps its position. *)
Fixpoint dict_set {V} (k : string) (v : V) (d : dict V) : dict V :=
  match d with
  | [] => [(k, v)]
  | (k', v') :: rest =>
      if String.eqb k' k then (k, v) :: rest else (k', v') :: dict_set k v rest
  end.

Definition dict_keys {V} (d : dict V) : list string := map fst d.
Definition dict_values {V} (d : dict V) : list V := map snd d.

Definition dict_has {V} (k : string) (d : dict V) : bool :=
  existsb (String.eqb k) (dict_keys d).

(** *** Bars and records *)

(** One entry of [dates_data]. *)
Record bar := {
  bar_date : string;
  bar_open : option Q;
  bar_close : option Q;
  bar_high : option Q;
  bar_low : option Q
}.

(** A stored price: a number or the string ['N/A']. *)
Inductive value :=
| Num (q : Q)
| NA.

(** An entry of [today_open_data].  The records are dicts; the formatter
    reads every key with a default, so a key may be absent. *)
Record today_record := {
  today_date : option string;
  today_open : option value;
  today_symbol_used : option string
}.

(** An entry of [yesterday_data]. *)
Record yesterday_record := {
  yesterday_date : option string;
  yesterday_open : option value;
  yesterday_close : option value;
  yesterday_high : option value;
  yesterday_low : option value;
  yesterday_symbol_used : option string
}.

(** Truth value of a number, as in [if x]: zero is false. *)
Definition truthy (q : Q) : bool := negb (Qnum q =? 0)%Z.

(** [l[i] if i < len(l) else None]. *)
Definition item_or_none (l : list (option Q)) (i : nat) : option Q :=
  match nth_error l i with
  | Some v => v
  | None => None
  end.

(** [i < len(l) and l[i] is not None]. *)
Definition has_item (l : list (option Q)) (i : nat) : bool :=
  match nth_error l i with
  | Some (Some _) => true
  | _ => false
  end.

(** Sorting [dates_data] by date, most recent first.  [list.sort] is stable,
    also with [reverse=True]: bars of equal date keep their order. *)
Fixpoint insert_desc (b : bar) (l : list bar) : list bar :=
  match l with
  | [] => [b]
  | y :: ys =>
      if String.ltb (bar_date b) (bar_date y)
      then y :: insert_desc b ys
      else b :: y :: ys
  end.

Definition sort_desc (l : list bar) : list bar := fold_right insert_desc [] l.

(** Events of the fetch phase. *)
Inductive fetch_event :=
| Request (index_name attempt_symbol : string) (outcome : get_outcome)
| Pause (milliseconds : Z)
| Exhausted (index_name : string).

(** Events of a send. *)
Inductive send_event :=
| Posted (attempt : nat) (outcome : post_outcome)
| Slept (seconds : nat).

Definition newline : string := String (ascii_of_nat 10) EmptyString.

(** *** Text of the report

    The decorations of the message, byte for byte as the source file has
    them. *)

Definition icon_cross : string := "âŒ".
Definition icon_wave : string := "ğŸ‘‹".
Definition icon_chart : string := "ğŸ“Š".
Definition icon_clock : string := "ğŸ•˜".
Definition icon_sunrise : string := "ğŸŒ…".
Definition rule_line : string := "â”â”â”â”â”â”â”â”â”â”â”â”â”â”â”â”â”â”â”â”â”â”â”â”â”â”â”â”".
Definition icon_up : string := "ğŸ“ˆ".
Definition icon_down : string := "ğŸ“‰".
Definition icon_warning : string := "âš ï¸".
Definition icon_phone : string := "ğŸ“±".
Definition icon_test : string := "ğŸ§ª".
Definition icon_check : string := "âœ…".

(** *** Configuration of [get_simplified_stock_data] *)

Definition symbols : dict string :=
  [ ("NIFTY 50", "^NSEI");
    ("NIFTY BANK", "^NSEBANK");
    ("NIFTY MID SELECT", "NIFTY_MID_SELECT.NS");
    ("NIFTY FINANCIAL SERVICES", "NIFTY_FIN_SERVICE.NS") ].

Definition alternative_symbols : dict (list string) :=
  [ ("NIFTY MID SELECT",
     [ "NIFTY_MID_SELECT.NS"; "^NSEMDCP50"; "NIFTY_MIDCAP_100.NS";
       "NIFTYMIDCAP150.NS" ]) ].

Definition all_expected_indices : list string :=
  [ "NIFTY 50"; "NIFTY BANK"; "NIFTY MID SELECT"; "NIFTY FINANCIAL SERVICES" ].

Definition chart_url (attempt_symbol : string) : string :=
  "https://query1.finance.yahoo.com/v8/finance/chart/" ++ attempt_symbol
  ++ "?range=5d&interval=1d".

Section Program.
Context {R : Runtime}.

(** **** QuoteSource client *)

(** The loop over [enumerate(timestamps)], from index [i] on.  A position
    is kept when its close and its open are both there and not [None]; the
    date conversion runs for kept positions only, and its exception ends
    the attempt. *)
Fixpoint dates_from (i : nat) (timestamps : list Z)
         (opens closes highs lows : list (option Q)) : option (list bar) :=
  match timestamps with
  | [] => Some []
  | timestamp :: rest =>
      if has_item closes i && has_item opens i then
        match fromtimestamp_date timestamp with
        | None => None
        | Some date =>
            match dates_from (S i) rest opens closes highs lows with
            | None => None
            | Some more =>
                Some ({| bar_date := date;
                         bar_open := item_or_none opens i;
                         bar_close := item_or_none closes i;
                         bar_high := item_or_none highs i;
                         bar_low := item_or_none lows i |} :: more)
            end
        end
      else dates_from (S i) rest opens closes highs lows
  end.

(** [dates_data] after the sort. *)
Definition dates_data_of (result : chart_result) (q : quote_data)
  : option (list bar) :=
  option_map sort_desc
    (dates_from 0 (result_timestamp result)
       (quote_open q) (quote_close q) (quote_high q) (quote_low q)).

(** How one attempt leaves the [try] block before the records are built. *)
Inductive attempt_parse :=
| Bars (dates_data : list bar)   (* reached [if len(dates_data) >= 2] *)
| Skip                           (* [continue]: no pause follows *)
| Fall.                          (* non-200 status: the pause follows *)

Definition parse_attempt (o : get_outcome) : attempt_parse :=
  match o with
  | GetRaises => Skip
  | GetResponse status_code body =>
      if (status_code =? 200)%Z then
        match body with
        | BadJson => Skip
        | NoChart => Skip
        | Chart [] => Skip
        | Chart (result :: _) =>
            match result_timestamp result, result_quote result with
            | [], _ => Skip
            | _, [] => Skip
            | _ :: _, q :: _ =>
                match dates_data_of result q with
                | None => Skip
                | Some dates_data => Bars dates_data
                end
            end
        end
      else Fall
  end.

(** [round(x, 2) if x else 'N/A'] *)
Definition rounded (x : option Q) : value :=
  match x with
  | Some q => if truthy q then Num (round2 q) else NA
  | None => NA
  end.

(** The dict stored in [today_open_data] and the one stored in
    [yesterday_data]. *)
Definition make_today (today : bar) (attempt_symbol : string) : today_record :=
  {| today_date := Some (bar_date today);
     today_open := Some (rounded (bar_open today));
     today_symbol_used := Some attempt_symbol |}.

Definition make_yesterday (yesterday : bar) (attempt_symbol : string)
  : yesterday_record :=
  {| yesterday_date := Some (bar_date yesterday);
     yesterday_open := Some (rounded (bar_open yesterday));
     yesterday_close := Some (rounded (bar_close yesterday));
     yesterday_high := Some (rounded (bar_high yesterday));
     yesterday_low := Some (rounded (bar_low yesterday));
     yesterday_symbol_used := Some attempt_symbol |}.

(** **** Symbol resolver *)

Record fetch_state := {
  fs_world : world;
  today_open_data : dict today_record;
  yesterday_data : dict yesterday_record;
  fs_log : list fetch_event
}.

(** Appending an event to the log ([time.sleep], the final [logger.error]). *)
Definition emit (e : fetch_event) (st : fetch_state) : fetch_state :=
  {| fs_world := fs_world st;
     today_open_data := today_open_data st;
     yesterday_data := yesterday_data st;
     fs_log := fs_log st ++ [e] |}.

(** The two assignments under [if len(dates_data) >= 2].  On numbers and
    [None] neither [round] nor the truth test raises, so the second
    assignment always follows the first. *)
Definition store (index_name attempt_symbol : string) (today yesterday : bar)
           (st : fetch_state) : fetch_state :=
  {| fs_world := fs_world st;
     today_open_data :=
       dict_set index_name (make_today today attempt_symbol)
                (today_open_data st);
     yesterday_data :=
       dict_set index_name (make_yesterday yesterday attempt_symbol)
                (yesterday_data st);
     fs_log := fs_log st |}.

(** [self.session.get(url, ...)], logged. *)
Definition request (index_name attempt_symbol : string) (st : fetch_state)
  : get_outcome * fetch_state :=
  let (o, w) := session_get (fs_world st) (chart_url attempt_symbol) in
  (o, {| fs_world := w;
         today_open_data := today_open_data st;
         yesterday_data := yesterday_data st;
         fs_log := fs_log st ++ [Request index_name attempt_symbol o] |}).

(** [for attempt_symbol in symbols_to_try]; the boolean is [success]. *)
Fixpoint try_symbols (index_name : string) (symbols_to_try : list string)
         (st : fetch_state) : fetch_state * bool :=
  match symbols_to_try with
  | [] => (st, false)
  | attempt_symbol :: rest =>
      let (o, st1) := request index_name attempt_symbol st in
      match parse_attempt o with
      | Skip => try_symbols index_name rest st1
      | Fall => try_symbols index_name rest (emit (Pause 300) st1)
      | Bars (today :: yesterday :: _) =>
          (store index_name attempt_symbol today yesterday st1, true)
      | Bars _ => try_symbols index_name rest (emit (Pause 300) st1)
      end
  end.

Definition symbols_to_try_for (alternatives : dict (list string))
           (index_name symbol : string) : list string :=
  match dict_get index_name alternatives with
  | Some l => l
  | None => [symbol]
  end.

(** [for index_name, symbol in symbols.items()] *)
Fixpoint fetch_indices (alternatives : dict (list string))
         (items : dict string) (st : fetch_state) : fetch_state :=
  match items with
  | [] => st
  | (index_name, symbol) :: rest =>
      let (st1, success) :=
        try_symbols index_name
                    (symbols_to_try_for alternatives index_name symbol) st in
      let st2 := if success then st1 else emit (Exhausted index_name) st1 in
      fetch_indices alternatives rest (emit (Pause 500) st2)
  end.

Definition initial_state (w : world) : fetch_state :=
  {| fs_world := w; today_open_data := []; yesterday_data := [];
     fs_log := [] |}.

(** The fetch phase over any table of instruments. *)
Definition fetch_all (alternatives : dict (list string)) (items : dict string)
           (w : world) : fetch_state :=
  fetch_indices alternatives items (initial_state w).

Definition get_simplified_stock_data (w : world) : fetch_state :=
  fetch_all alternative_symbols symbols w.

End Program.

Section Report.
Context {R : Runtime}.

(** **** Report builder *)

(** [values.get(key, 'N/A')] inside an f-string. *)
Definition show_value (v : option value) : string :=
  match v with
  | Some (Num q) => str_of_number q
  | Some NA => "N/A"
  | None => "N/A"
  end.

(** [f" [{values.get('symbol_used', 'N/A')}]" if 'symbol_used' in values else ""] *)
Definition symbol_info (symbol_used : option string) : string :=
  match symbol_used with
  | Some s => " [" ++ s ++ "]"
  | None => ""
  end.

(** [today_date]: empty unless the map has an entry; then the date of its
    first value, ['Today'] when that value has no date. *)
Definition today_date_of (today : dict today_record) : string :=
  match dict_values today with
  | [] => ""
  | values :: _ =>
      match today_date values with
      | Some d => d
      | None => "Today"
      end
  end.

Definition yesterday_date_of (yesterday : dict yesterday_record) : string :=
  match dict_values yesterday with
  | [] => ""
  | values :: _ =>
      match yesterday_date values with
      | Some d => d
      | None => "Yesterday"
      end
  end.

Definition today_header (today_date : string) : string :=
  icon_sunrise ++ " *Today's Opening (" ++ today_date ++ ")*" ++ newline
  ++ rule_line ++ newline.

Definition yesterday_header (yesterday_date : string) : string :=
  newline ++ icon_chart ++ " *Yesterday's OHLC (" ++ yesterday_date ++ ")*"
  ++ newline ++ rule_line ++ newline.

Definition today_block (entry : string * today_record) : string :=
  let (index_name, values) := entry in
  newline ++ icon_up ++ " *" ++ index_name ++ "*"
  ++ symbol_info (today_symbol_used values) ++ newline
  ++ "   Open: " ++ show_value (today_open values) ++ newline.

Definition yesterday_block (entry : string * yesterday_record) : string :=
  let (index_name, values) := entry in
  newline ++ icon_down ++ " *" ++ index_name ++ "*"
  ++ symbol_info (yesterday_symbol_used values) ++ newline
  ++ "   Open: " ++ show_value (yesterday_open values) ++ newline
  ++ "   High: " ++ show_value (yesterday_high values) ++ newline
  ++ "   Low: " ++ show_value (yesterday_low values) ++ newline
  ++ "   Close: " ++ show_value (yesterday_close values) ++ newline.

(** [all_expected_indices - set(d.keys())]: the members of the set. *)
Definition missing_from {V} (d : dict V) : list string :=
  filter (fun index_name => negb (dict_has index_name d)) all_expected_indices.

(** [f"Missing today's data: {', '.join(missing_today)}\n"], under
    [if missing_today]. *)
Definition missing_line (label : string) (missing : list string) : string :=
  match missing with
  | [] => ""
  | _ :: _ => label ++ String.concat ", " (set_iter missing) ++ newline
  end.

Definition data_status (missing_today missing_yesterday : list string)
  : string :=
  match missing_today, missing_yesterday with
  | [], [] => ""
  | _, _ =>
      newline ++ icon_warning ++ " *Data Status*" ++ newline
      ++ missing_line "Missing today's data: " missing_today
      ++ missing_line "Missing yesterday's data: " missing_yesterday
  end.

Definition no_data_message : string :=
  icon_cross ++ " Unable to fetch stock data at this time.".

Definition greeting (current_time : string) : string :=
  icon_wave ++ " Hi Omkar!" ++ newline ++ newline
  ++ icon_chart ++ " *Simplified Stock Report*" ++ newline
  ++ icon_clock ++ " Retrieved: " ++ current_time ++ newline ++ newline.

Definition footer : string := newline ++ icon_phone ++ " *Stock Bot by Omkar*".

(** The text after the guard of the first line, as the successive
    [message += ...] build it. *)
Definition report_text (current_time : string)
           (today : dict today_record) (yesterday : dict yesterday_record)
  : string :=
  greeting current_time
  ++ today_header (today_date_of today)
  ++ String.concat "" (map today_block today)
  ++ yesterday_header (yesterday_date_of yesterday)
  ++ String.concat "" (map yesterday_block yesterday)
  ++ data_status (missing_from today) (missing_from yesterday)
  ++ footer.

Definition format_simplified_message (w : world)
           (today : dict today_record) (yesterday : dict yesterday_record)
  : string :=
  match today, yesterday with
  | [], [] => no_data_message
  | _, _ => report_text (datetime_now w) today yesterday
  end.

(** **** Notifier *)

(** The body of [for attempt in range(max_retries)], over the attempts
    still to run.  The triple is the returned boolean, the world and the
    log. *)
Fixpoint send_attempts (message : string) (max_retries : nat)
         (attempts : list nat) (w : world) (log : list send_event)
  : bool * world * list send_event :=
  match attempts with
  | [] => (false, w, log)
  | attempt :: rest =>
      let (o, w1) := session_post w message in
      let log1 := log ++ [Posted attempt o] in
      match o with
      | PostResponse status_code =>
          if (status_code =? 200)%Z then (true, w1, log1)
          else if (attempt <? max_retries - 1)%nat
               then send_attempts message max_retries rest w1
                                  (log1 ++ [Slept 2])
               else (false, w1, log1)
      | PostConnectionError =>
          if (attempt <? max_retries - 1)%nat
          then send_attempts message max_retries rest w1
                             (log1 ++ [Slept (2 * (attempt + 1))%nat])
          else (false, w1, log1)
      | PostTimeout =>
          if (attempt <? max_retries - 1)%nat
          then send_attempts message max_retries rest w1
                             (log1 ++ [Slept (2 * (attempt + 1))%nat])
          else (false, w1, log1)
      | PostUnexpected =>
          if (attempt <? max_retries - 1)%nat
          then send_attempts message max_retries rest w1
                             (log1 ++ [Slept 3])
          else (false, w1, log1)
      end
  end.

Definition send_telegram_message_with (message : string) (max_retries : nat)
           (w : world) : bool * world * list send_event :=
  send_attempts message max_retries (seq 0 max_retries) w [].

(** [send_telegram_message(message)], with [max_retries=3]. *)
Definition send_telegram_message (message : string) (w : world)
  : bool * world * list send_event :=
  send_telegram_message_with message 3 w.

End Report.

Section Pipeline.
Context {R : Runtime}.

(** **** The run: connection test, fetch, report, delivery

    Console output ([print]) is not part of the model. *)

Definition error_message : string :=
  icon_cross
  ++ " Hi Omkar! Unable to fetch simplified stock data from any source.".

Definition test_message : string :=
  icon_test
  ++ " Hi Omkar! Test message from your Simplified Stock Bot is working perfectly! "
  ++ icon_check.

(** One call of [send_telegram_message]: the text, the boolean returned and
    the log of the call. *)
Record delivery := {
  sent_message : string;
  sent_ok : bool;
  sent_log : list send_event
}.

(** What [get_and_send_simplified_stock_data] did. *)
Record report_run := {
  run_fetched : fetch_state;
  run_delivery : delivery;
  run_world : world
}.

(** The part of [get_and_send_simplified_stock_data] after the fetch:
    [if today_open_data or yesterday_data] the report is formatted and sent,
    else the error message is sent. *)
Definition deliver_fetched (st : fetch_state) : report_run :=
  let today := today_open_data st in
  let yesterday := yesterday_data st in
  let message :=
    if negb (Nat.eqb (List.length today) 0)
       || negb (Nat.eqb (List.length yesterday) 0)
    then format_simplified_message (fs_world st) today yesterday
    else error_message in
  let '(success, w1, log) := send_telegram_message message (fs_world st) in
  {| run_fetched := st;
     run_delivery := {| sent_message := message; sent_ok := success;
                        sent_log := log |};
     run_world := w1 |}.

Definition get_and_send_simplified_stock_data (w : world) : report_run :=
  deliver_fetched (get_simplified_stock_data w).

(** [test_telegram_connection]: the boolean is the one of the send. *)
Definition test_telegram_connection (w : world)
  : bool * world * list send_event :=
  send_telegram_message test_message w.

(** What [main] did: the connection test and, when it succeeded, the run. *)
Record main_run := {
  main_test : delivery;
  main_report : option report_run;
  main_world : world
}.

Definition main (w : world) : main_run :=
  let '(ok, w1, log) := test_telegram_connection w in
  let test := {| sent_message := test_message; sent_ok := ok;
                 sent_log := log |} in
  if ok then
    let run := get_and_send_simplified_stock_data w1 in
    {| main_test := test; main_report := Some run;
       main_world := run_world run |}
  else
    {| main_test := test; main_report := None; main_world := w1 |}.

End Pipeline.

(** *** Reading the logs *)

(** The requests of a fetch log, one per call of [session.get]:
    instrument, symbol and outcome, in order. *)
Fixpoint requests (log : list fetch_event)
  : list (string * string * get_outcome) :=
  match log with
  | [] => []
  | Request index_name attempt_symbol o :: rest =>
      (index_name, attempt_symbol, o) :: requests rest
  | _ :: rest => requests rest
  end.

(** The outcomes of the calls of [session.post] and the waits of a send
    log, in order. *)
Fixpoint outcomes (log : list send_event) : list post_outcome :=
  match log with
  | [] => []
  | Posted _ o :: rest => o :: outcomes rest
  | Slept _ :: rest => outcomes rest
  end.

Fixpoint waits (log : list send_event) : list nat :=
  match log with
  | [] => []
  | Posted _ _ :: rest => waits rest
  | Slept s :: rest => s :: waits rest
  end.

(** *** A scripted runtime

    A runtime that can be run: the answers of the network are read off a
    script, one per call, in order.  Dates are computed for the fixed offset
    +05:30 (India Standard Time since 1945), numbers are rounded half to even
    on the second decimal and printed with at most two decimals. *)

Record script := {
  script_gets : list get_outcome;
  script_posts : list post_outcome;
  script_clock : string
}.

Definition scripted_get (w : script) (url : string) : get_outcome * script :=
  match script_gets w with
  | [] => (GetRaises, w)
  | o :: rest =>
      (o, {| script_gets := rest; script_posts := script_posts w;
             script_clock := script_clock w |})
  end.

Definition scripted_post (w : script) (message : string)
  : post_outcome * script :=
  match script_posts w with
  | [] => (PostUnexpected, w)
  | o :: rest =>
      (o, {| script_gets := script_gets w; script_posts := rest;
             script_clock := script_clock w |})
  end.

Definition decimal (n : Z) : string :=
  NilZero.string_of_uint (N.to_uint (Z.to_N n)).

Definition two_digits (n : Z) : string :=
  if (n <? 10)%Z then "0" ++ decimal n else decimal n.

Definition four_digits (n : Z) : string :=
  if (n <? 10)%Z then "000" ++ decimal n
  else if (n <? 100)%Z then "00" ++ decimal n
  else if (n <? 1000)%Z then "0" ++ decimal n
  else decimal n.

(** Year, month and day of a day number counted from 1970-01-01. *)
Definition civil_from_days (days : Z) : Z * Z * Z :=
  let z := (days + 719468)%Z in
  let era := (z / 146097)%Z in
  let doe := (z - era * 146097)%Z in
  let yoe := ((doe - doe / 1460 + doe / 36524 - doe / 146096) / 365)%Z in
  let doy := (doe - (365 * yoe + yoe / 4 - yoe / 100))%Z in
  let mp := ((5 * doy + 2) / 153)%Z in
  let d := (doy - (153 * mp + 2) / 5 + 1)%Z in
  let m := if (mp <? 10)%Z then (mp + 3)%Z else (mp - 9)%Z in
  let y := (yoe + era * 400 + (if (m <=? 2)%Z then 1 else 0))%Z in
  (y, m, d).

Definition ist_date (timestamp : Z) : option string :=
  let '(y, m, d) := civil_from_days ((timestamp + 19800) / 86400) in
  if ((1 <=? y) && (y <=? 9999))%Z
  then Some (four_digits y ++ "-" ++ two_digits m ++ "-" ++ two_digits d)%string
  else None.

(** The integer nearest to [q], ties to the even one. *)
Definition round_half_even (q : Q) : Z :=
  let n := Qnum q in
  let d := Zpos (Qden q) in
  let f := (n / d)%Z in
  let r2 := (2 * (n mod d))%Z in
  if (r2 <? d)%Z then f
  else if (d <? r2)%Z then (f + 1)%Z
  else if Z.even f then f else (f + 1)%Z.

Definition round_hundredths (q : Q) : Q :=
  Qred (Qmake (round_half_even (q * 100)) 100).

Definition print_hundredths (q : Q) : string :=
  let c := round_half_even (q * 100) in
  let a := Z.abs c in
  let frac := (a mod 100)%Z in
  (if (c <? 0)%Z then "-" else "")
  ++ decimal (a / 100) ++ "."
  ++ (if (frac mod 10 =? 0)%Z then decimal (frac / 10) else two_digits frac).

#[global] Instance scripted_runtime : Runtime := {|
  world := script;
  session_get := scripted_get;
  session_post := scripted_post;
  datetime_now := script_clock;
  fromtimestamp_date := ist_date;
  round2 := round_hundredths;
  str_of_number := print_hundredths;
  set_iter := fun l => l;
  set_iter_perm := fun l => Permutation_refl l
|}.

(** The same runtime, but iterating a set in the opposite order. *)
Definition reversed_sets_runtime : Runtime := {|
  world := script;
  session_get := scripted_get;
  session_post := scripted_post;
  datetime_now := script_clock;
  fromtimestamp_date := ist_date;
  round2 := round_hundredths;
  str_of_number := print_hundredths;
  set_iter := fun l => rev l;
  set_iter_perm := fun l => Permutation_rev l
|}.

(** Sample data: three sessions in ascending order, as the provider sends
    them (Mon 1 Jan 2024 to Wed 3 Jan 2024, 09:15 IST). *)
Definition sample_quote : quote_data :=
  {| quote_open := [Some (21727.75 : Q); Some 21751.349609375; Some 21661.1];
     quote_high := [Some 21834.35; None; Some 21677];
     quote_low := [Some 21680.85; Some 21555.65; Some 21500.35];
     quote_close := [Some 21741.9; Some 21665.8; Some 21517.35] |}.

Definition sample_result : chart_result :=
  {| result_timestamp := [1704080700; 1704167100; 1704253500]%Z;
     result_quote := [sample_quote] |}.

Definition sample_ok : get_outcome := GetResponse 200 (Chart [sample_result]).

(** A response whose most recent session opened at 0.0. *)
Definition zero_open_quote : quote_data :=
  {| quote_open := [Some (21727.75 : Q); Some 21751.35; Some 0];
     quote_high := [Some 21834.35; Some 21755.6; Some 21677];
     quote_low := [Some 21680.85; Some 21555.65; Some 21500.35];
     quote_close := [Some 21741.9; Some 21665.8; Some 21517.35] |}.

Definition zero_open_ok : get_outcome :=
  GetResponse 200
    (Chart [ {| result_timestamp := [1704080700; 1704167100; 1704253500]%Z;
                result_quote := [zero_open_quote] |} ]).

(** Four sessions, the second with a null open and the third with a null
    close (Mon 1 Jan 2024 to Thu 4 Jan 2024). *)
Definition sample_quote_with_nulls : quote_data :=
  {| quote_open := [Some (21727.75 : Q); None; Some 21661.1; Some 21605.8];
     quote_high := [Some 21834.35; Some 21755.6; Some 21677; Some 21685.65];
     quote_low := [Some 21680.85; Some 21555.65; None; Some 21564.55];
     quote_close := [Some 21741.9; Some 21665.8; None; Some 21658.6] |}.

Definition sample_result_with_nulls : chart_result :=
  {| result_timestamp :=
       [1704080700; 1704167100; 1704253500; 1704339900]%Z;
     result_quote := [sample_quote_with_nulls] |}.

Definition sample_with_nulls : get_outcome :=
  GetResponse 200 (Chart [sample_result_with_nulls]).

Definition sample_today_record : today_record :=
  {| today_date := Some "2024-01-03";
     today_open := Some (Num 21661.1);
     today_symbol_used := Some "^NSEI" |}.

Definition sample_yesterday_record : yesterday_record :=
  {| yesterday_date := Some "2024-01-02";
     yesterday_open := Some (Num 21751.35);
     yesterday_close := Some (Num 21665.8);
     yesterday_high := Some NA;
     yesterday_low := Some (Num 21555.65);
     yesterday_symbol_used := Some "^NSEI" |}.

Definition sample_script (gets : list get_outcome)
           (posts : list post_outcome) : script :=
  {| script_gets := gets; script_posts := posts;
     script_clock := "03-01-2024 09:07:00 IST" |}.

(** *** Vocabulary of the properties *)

Local Open Scope nat_scope.

(** No bar is dated after the head of a sorted list. *)
Fixpoint descending (l : list bar) : Prop :=
  match l with
  | [] => True
  | b :: rest =>
      Forall (fun y => String.ltb (bar_date b) (bar_date y) = false) rest
      /\ descending rest
  end.

(** The value at position [i] of an array is null: it is [None], or the
    array is too short to have it. *)
Definition null_at (l : list (option Q)) (i : nat) : bool :=
  match nth_error l i with
  | Some (Some _) => false
  | _ => true
  end.

(** The positions of [timestamp] whose open and close are both not null. *)
Definition valid_positions (result : chart_result) (q : quote_data)
  : list nat :=
  filter (fun i => negb (null_at (quote_open q) i || null_at (quote_close q) i))
         (seq 0 (List.length (result_timestamp result))).

(** The failure classes of a send. *)
Inductive notify_error :=
| HttpFailure
| ConnectionFailure
| Timeout
| Unexpected.

(** An attempt succeeds when the response has status 200; anything else is
    a failure of one of the four classes. *)
Definition failure_of (o : post_outcome) : option notify_error :=
  match o with
  | PostResponse status_code =>
      if (status_code =? 200)%Z then None else Some HttpFailure
  | PostConnectionError => Some ConnectionFailure
  | PostTimeout => Some Timeout
  | PostUnexpected => Some Unexpected
  end.

(** The attempt did not succeed. *)
Definition failed (o : post_outcome) : Prop := failure_of o <> None.

(** The wait that follows failed attempt number [attempt_number] (counted
    from 1), by failure class. *)
Definition backoff (attempt_number : nat) (e : notify_error) : nat :=
  match e with
  | HttpFailure => 2
  | ConnectionFailure => 2 * attempt_number
  | Timeout => 2 * attempt_number
  | Unexpected => 3
  end.

(** The wait after an attempt, by its outcome. *)
Definition wait_after (attempt_number : nat) (o : post_outcome) : nat :=
  match failure_of o with
  | Some e => backoff attempt_number e
  | None => 0
  end.

(** The log of a run of attempts with the given outcomes, the first of them
    being attempt [k] (counted from 0): every attempt but the last is
    followed by its wait. *)
Fixpoint trace (k : nat) (outs : list post_outcome) : list send_event :=
  match outs with
  | [] => []
  | o :: rest =>
      Posted k o ::
      match rest with
      | [] => []
      | _ :: _ => Slept (wait_after (S k) o) :: trace (S k) rest
      end
  end.

(** A status of the 2xx family. *)
Definition is_2xx (o : post_outcome) : bool :=
  match o with
  | PostResponse status_code =>
      ((200 <=? status_code) && (status_code <=? 299))%Z
  | _ => false
  end.

(** [needle] occurs in [text]. *)
Definition occurs (needle text : string) : bool :=
  match String.index 0 needle text with
  | Some _ => true
  | None => false
  end.

(** A line of the data status section: nothing for no name, else the label,
    the names separated by commas, and a newline. *)
Definition listing (label : string) (names : list string) : string :=
  match names with
  | [] => ""
  | _ :: _ => label ++ String.concat ", " names ++ newline
  end.

(** The date shown by a header: empty for an empty map, else the date of
    the first record, or the generic label when that record has none. *)
Definition shown_date {V} (date_of : V -> option string) (generic : string)
           (d : dict V) : string :=
  match d with
  | [] => ""
  | (_, values) :: _ =>
      match date_of values with
      | Some date => date
      | None => generic
      end
  end.

(** A response as it would be without its [high] array, or without its
    [low] array, and a bar without that price. *)
Definition without_high (q : quote_data) : quote_data :=
  {| quote_open := quote_open q; quote_high := [];
     quote_low := quote_low q; quote_close := quote_close q |}.

Definition without_low (q : quote_data) : quote_data :=
  {| quote_open := quote_open q; quote_high := quote_high q;
     quote_low := []; quote_close := quote_close q |}.

Definition clear_high (b : bar) : bar :=
  {| bar_date := bar_date b; bar_open := bar_open b;
     bar_close := bar_close b; bar_high := None; bar_low := bar_low b |}.

Definition clear_low (b : bar) : bar :=
  {| bar_date := bar_date b; bar_open := bar_open b;
     bar_close := bar_close b; bar_high := bar_high b; bar_low := None |}.

(** The time slept by the calls of [time.sleep] of the fetch phase, in
    milliseconds. *)
Fixpoint pause_total (log : list fetch_event) : Z :=
  match log with
  | [] => 0%Z
  | Pause ms :: rest => (ms + pause_total rest)%Z
  | _ :: rest => pause_total rest
  end.

(** The instruments reported as failed with all their symbols. *)
Fixpoint exhausted (log : list fetch_event) : list string :=
  match log with
  | [] => []
  | Exhausted index_name :: rest => index_name :: exhausted rest
  | _ :: rest => exhausted rest
  end.

(** The date string of [a] is not greater than the one of [b], in the
    order of strings.  This is the key and the order of the sort; it is the
    order of the days only among dates whose year has four digits. *)
Definition date_key_le (a b : bar) : Prop :=
  String.leb (bar_date a) (bar_date b) = true.

Section Vocabulary.
Context {R : Runtime}.

(** Bar [b] was built from position [i] of the response. *)
Definition bar_from (timestamps : list Z) (opens closes highs lows : list (option Q))
           (i : nat) (b : bar) : Prop :=
  exists timestamp o c,
    nth_error timestamps i = Some timestamp
    /\ fromtimestamp_date timestamp = Some (bar_date b)
    /\ nth_error opens i = Some (Some o) /\ bar_open b = Some o
    /\ nth_error closes i = Some (Some c) /\ bar_close b = Some c
    /\ bar_high b = item_or_none highs i
    /\ bar_low b = item_or_none lows i.

(** The fetch of a candidate yields at least two valid bars. *)
Definition two_bars (o : get_outcome) : Prop :=
  exists dates_data,
    parse_attempt o = Bars dates_data /\ 2 <= List.length dates_data.

(** Some request logged for the instrument yielded two bars or more. *)
Definition usable_in (index_name : string) (evs : list fetch_event) : Prop :=
  exists c o, In (index_name, c, o) (requests evs) /\ two_bars o.

(** What the runtime answers to a sequence of requests made one after the
    other, and the world they leave. *)
Fixpoint answers (w : world) (urls : list string)
  : list get_outcome * world :=
  match urls with
  | [] => ([], w)
  | url :: rest =>
      let (o, w1) := session_get w url in
      let (os, w2) := answers w1 rest in
      (o :: os, w2)
  end.

(** The requests of one instrument as the log shows them. *)
Definition logged (index_name : string) (attempted : list string)
           (outs : list get_outcome) : list (string * string * get_outcome) :=
  map (fun so => (index_name, fst so, snd so)) (combine attempted outs).

(** What one run of the candidate loop did, from state [st] to the pair
    [r] it returns. *)
Definition resolved (index_name : string) (symbols_to_try : list string)
           (st : fetch_state) (r : fetch_state * bool) : Prop :=
  exists attempted rest outs evs,
    symbols_to_try = attempted ++ rest
    /\ answers (fs_world st) (map chart_url attempted)
       = (outs, fs_world (fst r))
    /\ fs_log (fst r) = fs_log st ++ evs
    /\ requests evs = logged index_name attempted outs
    /\ ((snd r = false
         /\ rest = []
         /\ Forall (fun o => ~ two_bars o) outs
         /\ today_open_data (fst r) = today_open_data st
         /\ yesterday_data (fst r) = yesterday_data st)
        \/
        (snd r = true
         /\ exists pre pre_outs c o today yesterday more,
             attempted = pre ++ [c]
             /\ outs = pre_outs ++ [o]
             /\ Forall (fun o => ~ two_bars o) pre_outs
             /\ parse_attempt o = Bars (today :: yesterday :: more)
             /\ In (index_name, c, o) (requests evs)
             /\ today_open_data (fst r)
                = dict_set index_name (make_today today c)
                           (today_open_data st)
             /\ yesterday_data (fst r)
                = dict_set index_name (make_yesterday yesterday c)
                           (yesterday_data st))).

(** The two maps go together: same keys in the same order, and the two
    records of an instrument come from the first two bars of one logged
    request. *)
Definition paired (st : fetch_state) : Prop :=
  dict_keys (today_open_data st) = dict_keys (yesterday_data st)
  /\ forall index_name t,
      dict_get index_name (today_open_data st) = Some t ->
      exists c o today yesterday more,
        In (index_name, c, o) (requests (fs_log st))
        /\ parse_attempt o = Bars (today :: yesterday :: more)
        /\ t = make_today today c
        /\ dict_get index_name (yesterday_data st)
           = Some (make_yesterday yesterday c).

(** The answers of [n] posts of [message] made one after the other. *)
Fixpoint post_answers (w : world) (message : string) (n : nat)
  : list post_outcome :=
  match n with
  | 0 => []
  | S n' =>
      let (o, w1) := session_post w message in
      o :: post_answers w1 message n'
  end.

(** The number of candidate symbols of a table of instruments. *)
Definition total_candidates (alternatives : dict (list string))
           (items : dict string) : nat :=
  list_sum (map (fun item => List.length
                               (symbols_to_try_for alternatives
                                                   (fst item) (snd item)))
                items).

(** The calls of [session.post] and of [session.get] of a whole run of
    [main], by their outcomes. *)
Definition run_posts (r : main_run) : list post_outcome :=
  outcomes (sent_log (main_test r))
  ++ match main_report r with
     | Some run => outcomes (sent_log (run_delivery run))
     | None => []
     end.

Definition run_requests (r : main_run)
  : list (string * string * get_outcome) :=
  match main_report r with
  | Some run => requests (fs_log (run_fetched run))
  | None => []
  end.

End Vocabulary.

(** ** Part II: properties *)

(** *** Dictionaries and logs *)

Lemma dict_get_set_same {V} (k : string) (v : V) (d : dict V) :
  dict_get k (dict_set k v d) = Some v.
Proof.
  induction d as [|[k' v'] d IH]; simpl.
  - now rewrite String.eqb_refl.
  - destruct (String.eqb k' k) eqn:E; simpl.
    + now rewrite String.eqb_refl.
    + now rewrite E.
Qed.

Lemma dict_get_set_other {V} (k k0 : string) (v : V) (d : dict V) :
  k0 <> k -> dict_get k0 (dict_set k v d) = dict_get k0 d.
Proof.
  intros Hne. induction d as [|[k' v'] d IH]; simpl.
  - destruct (String.eqb_spec k k0); congruence.
  - destruct (String.eqb_spec k' k) as [->|Hk]; simpl.
    + destruct (String.eqb_spec k k0); congruence.
    + destruct (String.eqb_spec k' k0); congruence.
Qed.

Lemma dict_keys_set {V W} (k : string) (v : V) (v' : W)
      (d : dict V) (d' : dict W) :
  dict_keys d = dict_keys d' ->
  dict_keys (dict_set k v d) = dict_keys (dict_set k v' d').
Proof.
  revert d'. induction d as [|[k1 v1] d IH]; intros [|[k2 v2] d'] H;
    simpl in *; try discriminate; auto.
  injection H as -> H.
  destruct (String.eqb k2 k); simpl; f_equal; auto.
Qed.

Lemma dict_get_in_keys {V} (k : string) (d : dict V) :
  In k (dict_keys d) <-> dict_get k d <> None.
Proof.
  induction d as [|[k' v] d IH]; simpl.
  - split; [tauto | congruence].
  - destruct (String.eqb_spec k' k) as [->|Hne].
    + split; [congruence | auto].
    + rewrite <- IH. split; [intros [?|?]; [congruence | auto] | auto].
Qed.

Lemma dict_has_in {V} (k : string) (d : dict V) :
  dict_has k d = true <-> In k (dict_keys d).
Proof.
  unfold dict_has. rewrite existsb_exists. split.
  - intros (x & Hx & E). apply String.eqb_eq in E. now subst.
  - intros H. exists k. split; [assumption | apply String.eqb_refl].
Qed.

Lemma requests_app (l1 l2 : list fetch_event) :
  requests (l1 ++ l2) = requests l1 ++ requests l2.
Proof.
  induction l1 as [|[n s o|ms|n] l1 IH]; simpl; auto. now rewrite IH.
Qed.

Lemma outcomes_app (l1 l2 : list send_event) :
  outcomes (l1 ++ l2) = outcomes l1 ++ outcomes l2.
Proof.
  induction l1 as [|[a o|s] l1 IH]; simpl; auto. now rewrite IH.
Qed.

(** *** The sort *)

Lemma insert_desc_perm (b : bar) (l : list bar) :
  Permutation (b :: l) (insert_desc b l).
Proof.
  induction l as [|y ys IH]; simpl; auto.
  destruct (String.ltb (bar_date b) (bar_date y)); auto.
  eapply perm_trans; [apply perm_swap | apply perm_skip, IH].
Qed.

Lemma sort_desc_perm (l : list bar) : Permutation l (sort_desc l).
Proof.
  induction l as [|b l IH]; simpl; auto.
  eapply perm_trans; [apply perm_skip, IH | apply insert_desc_perm].
Qed.

Lemma ltb_false_trans (a b c : string) :
  String.ltb a b = false -> String.ltb b c = false -> String.ltb a c = false.
Proof.
  unfold String.ltb. intros H1 H2.
  destruct (String.compare a b) eqn:Eab; try discriminate.
  - apply String.compare_eq_iff in Eab. now subst.
  - destruct (String.compare b c) eqn:Ebc; try discriminate.
    + apply String.compare_eq_iff in Ebc. subst. now rewrite Eab.
    + destruct (String.compare a c) eqn:Eac; auto.
      exfalso.
      assert (Hca : String.compare c a = Gt)
        by (rewrite String.compare_antisym, Eac; reflexivity).
      assert (Hba : String.compare b a = Lt)
        by (rewrite String.compare_antisym, Eab; reflexivity).
      assert (Hcb : String.compare c b = Lt)
        by (rewrite String.compare_antisym, Ebc; reflexivity).
      clear - Hca Hba Hcb. revert a b Hca Hba Hcb.
      induction c as [|x c IH]; intros [|y a] [|z b]; simpl;
        try discriminate.
      destruct (Ascii.compare x y) eqn:Exy; try discriminate;
        destruct (Ascii.compare z y) eqn:Ezy; try discriminate;
        destruct (Ascii.compare x z) eqn:Exz; try discriminate;
        intros Hca Hba Hcb.
      all: try (apply Ascii.compare_eq_iff in Exy; subst).
      all: try (apply Ascii.compare_eq_iff in Ezy; subst).
      all: try (apply Ascii.compare_eq_iff in Exz; subst).
      all: try (eapply IH; eassumption).
      all: try congruence.
      all: unfold Ascii.compare in *;
        rewrite ?N.compare_lt_iff, ?N.compare_gt_iff in *; lia.
Qed.

Lemma ltb_true_false (a b : string) :
  String.ltb a b = true -> String.ltb b a = false.
Proof.
  unfold String.ltb. rewrite (String.compare_antisym b a).
  destruct (String.compare a b); simpl; congruence.
Qed.

Lemma insert_desc_descending (b : bar) (l : list bar) :
  descending l -> descending (insert_desc b l).
Proof.
  induction l as [|y ys IH]; simpl.
  - intros _. split; [constructor | exact I].
  - intros [Hy Hys].
    destruct (String.ltb (bar_date b) (bar_date y)) eqn:E; simpl.
    + split; [| auto].
      apply (Permutation_Forall (insert_desc_perm b ys)).
      constructor; [now apply ltb_true_false | assumption].
    + split; [| split; assumption].
      constructor; [assumption |].
      eapply Forall_impl; [| exact Hy].
      intros z Hz. simpl in Hz. eapply ltb_false_trans; eassumption.
Qed.

Lemma sort_desc_descending (l : list bar) : descending (sort_desc l).
Proof.
  induction l as [|b l IH]; simpl; [exact I |].
  now apply insert_desc_descending.
Qed.

(** *** QuoteSource client: which positions become bars *)

Section Bars.
Context {R : Runtime}.

Lemma has_item_some (l : list (option Q)) (i : nat) :
  has_item l i = true -> exists v, nth_error l i = Some (Some v).
Proof.
  unfold has_item. destruct (nth_error l i) as [[v|]|]; try discriminate.
  intros _. now exists v.
Qed.

Lemma has_item_null (l : list (option Q)) (i : nat) :
  has_item l i = negb (null_at l i).
Proof.
  unfold has_item, null_at. now destruct (nth_error l i) as [[v|]|].
Qed.

Lemma dates_from_spec (timestamps : list Z)
      (opens closes highs lows : list (option Q)) :
  forall (i : nat) (bars : list bar),
    dates_from i timestamps opens closes highs lows = Some bars ->
    Forall (fun b => exists k,
                bar_from (repeat 0%Z i ++ timestamps)
                         opens closes highs lows (i + k) b) bars
    /\ List.length bars
       = List.length (filter (fun j => negb (null_at opens j || null_at closes j))
                        (seq i (List.length timestamps))).
Proof.
  induction timestamps as [|timestamp rest IH]; intros i bars H; simpl in H.
  - injection H as <-. split; [constructor | reflexivity].
  - assert (Hshift : forall k b,
               bar_from (repeat 0%Z (S i) ++ rest) opens closes highs lows
                        (S i + k) b ->
               bar_from (repeat 0%Z i ++ timestamp :: rest)
                        opens closes highs lows (i + S k) b).
    { intros k b (t & o & c & Ht & Hrest).
      exists t, o, c. split; [| now rewrite Nat.add_succ_r].
      rewrite Nat.add_succ_r.
      rewrite nth_error_app2 in * by (rewrite repeat_length; lia).
      rewrite repeat_length in *.
      replace (S (i + k) - i) with (S k) by lia.
      replace (S i + k - S i) with k in Ht by lia. exact Ht. }
    simpl. rewrite !has_item_null in H. rewrite negb_orb, andb_comm.
    destruct (negb (null_at closes i) && negb (null_at opens i)) eqn:Ev.
    + destruct (fromtimestamp_date timestamp) as [date|] eqn:Ed;
        [| discriminate].
      destruct (dates_from (S i) rest opens closes highs lows)
        as [more|] eqn:Em; [| discriminate].
      injection H as <-. destruct (IH _ _ Em) as [Hall Hlen].
      split.
      * constructor.
        -- exists 0. apply andb_prop in Ev as [Hc Ho].
           rewrite <- has_item_null in Hc, Ho.
           destruct (has_item_some _ _ Hc) as [c Hc'].
           destruct (has_item_some _ _ Ho) as [o Ho'].
           exists timestamp, o, c. rewrite Nat.add_0_r. simpl.
           unfold item_or_none. rewrite Hc', Ho'.
           repeat split; auto.
           rewrite nth_error_app2 by (rewrite repeat_length; lia).
           rewrite repeat_length, Nat.sub_diag. reflexivity.
        -- eapply Forall_impl; [| exact Hall].
           intros b [k Hk]. exists (S k). now apply Hshift.
      * simpl. now rewrite Hlen.
    + destruct (IH _ _ H) as [Hall Hlen]. split; [| assumption].
      eapply Forall_impl; [| exact Hall].
      intros b [k Hk]. exists (S k). now apply Hshift.
Qed.

(** C4: the list from which "today" (index 0) and "yesterday" (index 1)
    are picked holds a bar only for a position whose open and close are
    both not null: every bar of it has an open and a close, each bar was
    built from such a position, there are exactly as many bars as such
    positions, and the list is in descending order of date. *)
Theorem C4_null_positions_give_no_bar (o : get_outcome)
        (dates_data : list bar) :
  parse_attempt o = Bars dates_data ->
  exists result more q qs,
    o = GetResponse 200 (Chart (result :: more))
    /\ result_quote result = q :: qs
    /\ (forall b, In b dates_data ->
                  bar_open b <> None /\ bar_close b <> None)
    /\ (forall b, In b dates_data ->
          exists i, In i (valid_positions result q)
            /\ bar_from (result_timestamp result) (quote_open q)
                        (quote_close q) (quote_high q) (quote_low q) i b)
    /\ List.length dates_data = List.length (valid_positions result q)
    /\ descending dates_data.
Proof.
  unfold parse_attempt. intros H.
  destruct o as [|status_code body]; [discriminate |].
  destruct (Z.eqb_spec status_code 200) as [->|]; [| discriminate].
  destruct body as [| |[|result more]]; try discriminate.
  destruct (result_timestamp result) as [|t ts] eqn:Et; [discriminate |].
  destruct (result_quote result) as [|q qs] eqn:Eq; [discriminate |].
  destruct (dates_data_of result q) as [sorted|] eqn:Ed; [| discriminate].
  injection H as <-.
  unfold dates_data_of in Ed.
  destruct (dates_from 0 (result_timestamp result) (quote_open q)
              (quote_close q) (quote_high q) (quote_low q))
    as [bars|] eqn:Eb; [| discriminate].
  injection Ed as <-.
  destruct (dates_from_spec _ _ _ _ _ _ _ Eb) as [Hall Hlen].
  simpl in Hall. rewrite Forall_forall in Hall.
  pose proof (sort_desc_perm bars) as Hperm.
  assert (Hfrom : forall b, In b (sort_desc bars) ->
            exists i, bar_from (result_timestamp result) (quote_open q)
                        (quote_close q) (quote_high q) (quote_low q) i b).
  { intros b Hb. apply (Permutation_in _ (Permutation_sym Hperm)) in Hb.
    destruct (Hall b Hb) as [k Hk]. now exists k. }
  exists result, more, q, qs. repeat split; auto.
  - destruct (Hfrom b H) as (i & t' & o' & c' & _ & _ & _ & Ho & _).
    congruence.
  - destruct (Hfrom b H) as (i & t' & o' & c' & _ & _ & _ & _ & _ & Hc & _).
    congruence.
  - intros b Hb. destruct (Hfrom b Hb) as [i Hi]. exists i.
    split; [| exact Hi].
    destruct Hi as (t' & o' & c' & Ht & _ & Ho & _ & Hc & _).
    unfold valid_positions. apply filter_In. split.
    + apply in_seq. split; [lia |]. simpl.
      apply nth_error_Some. congruence.
    + unfold null_at. now rewrite Ho, Hc.
  - rewrite <- (Permutation_length Hperm). exact Hlen.
  - apply sort_desc_descending.
Qed.

End Bars.

Lemma C4_witness :
  exists dates_data,
    parse_attempt sample_with_nulls = Bars dates_data
    /\ null_at (quote_open sample_quote_with_nulls) 1 = true
    /\ null_at (quote_close sample_quote_with_nulls) 2 = true
    /\ valid_positions sample_result_with_nulls sample_quote_with_nulls
       = [0; 3]
    /\ List.length dates_data = 2
    /\ (forall b, In b dates_data ->
                  bar_open b <> None /\ bar_close b <> None)
    /\ (forall b, In b dates_data ->
          exists i, In i [0; 3]
            /\ bar_from (result_timestamp sample_result_with_nulls)
                        (quote_open sample_quote_with_nulls)
                        (quote_close sample_quote_with_nulls)
                        (quote_high sample_quote_with_nulls)
                        (quote_low sample_quote_with_nulls) i b).
Proof.
  pose (d := match parse_attempt sample_with_nulls with
             | Bars dates_data => dates_data
             | _ => []
             end).
  assert (Hparse : parse_attempt sample_with_nulls = Bars d)
    by (vm_compute; reflexivity).
  pose proof (@C4_null_positions_give_no_bar scripted_runtime
                sample_with_nulls d Hparse) as H.
  destruct H as (result & more & q & qs & Ho & Hq & Hnull & Hfrom & Hlen & _).
  unfold sample_with_nulls in Ho. injection Ho as <- _.
  simpl in Hq. injection Hq as <- _.
  assert (Hvalid : valid_positions sample_result_with_nulls
                                   sample_quote_with_nulls = [0; 3])
    by reflexivity.
  rewrite Hvalid in Hfrom, Hlen.
  exists d. repeat (split; [first [assumption | reflexivity] |]).
  exact Hfrom.
Defined.

(** *** Symbol resolver *)

Section Resolver.
Context {R : Runtime}.

Lemma resolved_after_failure (index_name c : string) (cs : list string)
      (st st1 : fetch_state) (o : get_outcome) (pauses : list fetch_event)
      (r : fetch_state * bool) :
  session_get (fs_world st) (chart_url c) = (o, fs_world st1) ->
  today_open_data st1 = today_open_data st ->
  yesterday_data st1 = yesterday_data st ->
  fs_log st1 = fs_log st ++ Request index_name c o :: pauses ->
  requests pauses = [] ->
  ~ two_bars o ->
  resolved index_name cs st1 r ->
  resolved index_name (c :: cs) st r.
Proof.
  intros Hget Ht Hy Hlog Hp Hno
         (attempted & rest & outs & evs & Hc & Ha & Hl & Hr & Hres).
  exists (c :: attempted), rest, (o :: outs),
    (Request index_name c o :: pauses ++ evs).
  split; [simpl; now rewrite Hc |].
  split; [simpl; now rewrite Hget, Ha |].
  split; [rewrite Hl, Hlog, <- app_assoc; reflexivity |].
  assert (Hreq : requests (Request index_name c o :: pauses ++ evs)
                 = (index_name, c, o) :: requests evs)
    by (simpl; now rewrite requests_app, Hp).
  split; [rewrite Hreq, Hr; reflexivity |].
  destruct Hres as [(Hs & Hrest & Hall & Ht' & Hy')
                   |(Hs & pre & pre_outs & c' & o' & t & y & more
                     & Hatt & Houts & Hall & Hparse & Hin & Ht' & Hy')].
  - left. repeat split; try congruence. now constructor.
  - right. split; [assumption |].
    exists (c :: pre), (o :: pre_outs), c', o', t, y, more.
    repeat split; try congruence.
    + simpl. now rewrite Hatt.
    + simpl. now rewrite Houts.
    + now constructor.
    + rewrite Hreq. now right.
Qed.

Lemma short_not_two_bars (o : get_outcome) (l : list bar) :
  parse_attempt o = Bars l -> List.length l < 2 -> ~ two_bars o.
Proof.
  intros Hl Hlt (d & Hd & Hge). rewrite Hl in Hd. injection Hd as <-. lia.
Qed.

Lemma try_symbols_resolved (index_name : string) :
  forall (symbols_to_try : list string) (st : fetch_state),
    resolved index_name symbols_to_try st
             (try_symbols index_name symbols_to_try st).
Proof.
  induction symbols_to_try as [|c cs IH]; intros st.
  - exists [], [], [], []. simpl. rewrite app_nil_r.
    repeat split. left. repeat split. constructor.
  - simpl. unfold request.
    destruct (session_get (fs_world st) (chart_url c)) as [o w] eqn:Hget.
    set (st1 := {| fs_world := w;
                   today_open_data := today_open_data st;
                   yesterday_data := yesterday_data st;
                   fs_log := fs_log st ++ [Request index_name c o] |}).
    assert (Hpause : fs_log (emit (Pause 300) st1)
                     = fs_log st ++ [Request index_name c o; Pause 300])
      by (simpl; now rewrite <- app_assoc).
    destruct (parse_attempt o) as [[|today [|yesterday more]]| |] eqn:Hp.
    + apply (resolved_after_failure index_name c cs st
               (emit (Pause 300) st1) o [Pause 300]); auto.
      apply (short_not_two_bars o []); simpl; auto.
    + apply (resolved_after_failure index_name c cs st
               (emit (Pause 300) st1) o [Pause 300]); auto.
      apply (short_not_two_bars o [today]); simpl; auto.
    + exists [c], cs, [o], [Request index_name c o]. simpl.
      rewrite Hget.
      split; [reflexivity |]. split; [reflexivity |].
      split; [reflexivity |]. split; [reflexivity |].
      right. split; [reflexivity |].
      exists [], [], c, o, today, yesterday, more.
      split; [reflexivity |]. split; [reflexivity |].
      split; [constructor |]. split; [exact Hp |].
      split; [now left |]. split; reflexivity.
    + apply (resolved_after_failure index_name c cs st st1 o []); auto.
      intros (d & Hd & _). congruence.
    + apply (resolved_after_failure index_name c cs st
               (emit (Pause 300) st1) o [Pause 300]); auto.
      intros (d & Hd & _). congruence.
Qed.

(** C1: the candidate loop requests a prefix of the candidate list, in the
    declared order and nothing else; it returns success exactly when the
    last request made is the first one to yield at least two valid bars,
    and then both records stored for the instrument name that candidate
    as [symbol_used]; otherwise every candidate was requested, none
    yielded two bars and the maps are as they were. *)
Theorem C1_first_usable_candidate_wins (index_name : string)
        (symbols_to_try : list string) (st : fetch_state) :
  let r := try_symbols index_name symbols_to_try st in
  exists attempted rest outs,
    symbols_to_try = attempted ++ rest
    /\ answers (fs_world st) (map chart_url attempted)
       = (outs, fs_world (fst r))
    /\ requests (fs_log (fst r))
       = requests (fs_log st) ++ logged index_name attempted outs
    /\ if snd r then
         exists pre pre_outs c o t y,
           attempted = pre ++ [c]
           /\ outs = pre_outs ++ [o]
           /\ Forall (fun o => ~ two_bars o) pre_outs
           /\ two_bars o
           /\ dict_get index_name (today_open_data (fst r)) = Some t
           /\ today_symbol_used t = Some c
           /\ dict_get index_name (yesterday_data (fst r)) = Some y
           /\ yesterday_symbol_used y = Some c
       else
         rest = []
         /\ Forall (fun o => ~ two_bars o) outs
         /\ today_open_data (fst r) = today_open_data st
         /\ yesterday_data (fst r) = yesterday_data st.
Proof.
  intros r.
  destruct (try_symbols_resolved index_name symbols_to_try st)
    as (attempted & rest & outs & evs & Hc & Ha & Hl & Hr & Hres).
  fold r in Ha, Hl, Hres.
  exists attempted, rest, outs.
  split; [assumption |]. split; [assumption |].
  split; [rewrite Hl, requests_app, Hr; reflexivity |].
  destruct Hres as [(Hs & Hrest & Hall & Ht & Hy)
                   |(Hs & pre & pre_outs & c & o & t & y & more
                     & Hatt & Houts & Hall & Hparse & Hin & Ht & Hy)];
    rewrite Hs.
  - auto.
  - exists pre, pre_outs, c, o, (make_today t c), (make_yesterday y c).
    repeat split; auto.
    + exists (t :: y :: more). split; [assumption | simpl; lia].
    + rewrite Ht. apply dict_get_set_same.
    + rewrite Hy. apply dict_get_set_same.
Qed.

End Resolver.

(** *** The fetch phase *)

Section FetchPhase.
Context {R : Runtime}.

Lemma try_symbols_log (index_name : string) (l : list string)
      (st : fetch_state) :
  exists evs, fs_log (fst (try_symbols index_name l st)) = fs_log st ++ evs.
Proof.
  destruct (try_symbols_resolved index_name l st)
    as (_ & _ & _ & evs & _ & _ & Hl & _).
  now exists evs.
Qed.

Lemma paired_log (st st' : fetch_state) (evs : list fetch_event) :
  today_open_data st' = today_open_data st ->
  yesterday_data st' = yesterday_data st ->
  fs_log st' = fs_log st ++ evs ->
  paired st -> paired st'.
Proof.
  intros Ht Hy Hl [Hk Hp]. split; [congruence |].
  intros index_name t Hget. rewrite Ht in Hget.
  destruct (Hp _ _ Hget) as (c & o & tb & yb & more & Hin & Hrest).
  exists c, o, tb, yb, more. rewrite Hy, Hl, requests_app.
  split; [apply in_or_app; now left | exact Hrest].
Qed.

Lemma try_symbols_paired (index_name : string) (l : list string)
      (st : fetch_state) :
  paired st -> paired (fst (try_symbols index_name l st)).
Proof.
  intros Hst.
  destruct (try_symbols_resolved index_name l st)
    as (attempted & rest & outs & evs & _ & _ & Hl & _ & Hres).
  destruct Hres as [(_ & _ & _ & Ht & Hy)
                   |(_ & pre & pre_outs & c & o & tb & yb & more
                     & _ & _ & _ & Hparse & Hin & Ht & Hy)].
  - eapply paired_log; eassumption.
  - destruct Hst as [Hk Hp]. split.
    + rewrite Ht, Hy. now apply dict_keys_set.
    + intros name t Hget. rewrite Ht in Hget. rewrite Hy, Hl, requests_app.
      destruct (String.eqb_spec name index_name) as [->|Hne].
      * rewrite dict_get_set_same in Hget. injection Hget as <-.
        exists c, o, tb, yb, more.
        split; [apply in_or_app; now right |].
        split; [assumption |]. split; [reflexivity |].
        apply dict_get_set_same.
      * rewrite dict_get_set_other in Hget by assumption.
        destruct (Hp _ _ Hget) as (c' & o' & tb' & yb' & more' & Hin' & Hq
                                   & Heq & Hy').
        exists c', o', tb', yb', more'.
        split; [apply in_or_app; now left |].
        split; [assumption |]. split; [assumption |].
        now rewrite dict_get_set_other.
Qed.

Lemma emit_paired (e : fetch_event) (st : fetch_state) :
  paired st -> paired (emit e st).
Proof. apply (paired_log st (emit e st) [e]); reflexivity. Qed.

Lemma fetch_indices_paired (alternatives : dict (list string)) :
  forall (items : dict string) (st : fetch_state),
    paired st -> paired (fetch_indices alternatives items st).
Proof.
  induction items as [|[index_name symbol] items IH]; intros st Hst;
    simpl; [assumption |].
  pose proof (try_symbols_paired index_name
                (symbols_to_try_for alternatives index_name symbol) st Hst)
    as Hp.
  destruct (try_symbols index_name
              (symbols_to_try_for alternatives index_name symbol) st)
    as [st1 success].
  simpl in Hp. apply IH, emit_paired.
  destruct success; [assumption | now apply emit_paired].
Qed.

Lemma fetch_indices_log (alternatives : dict (list string)) :
  forall (items : dict string) (st : fetch_state),
  exists evs, fs_log (fetch_indices alternatives items st) = fs_log st ++ evs.
Proof.
  induction items as [|[index_name symbol] items IH]; intros st; simpl.
  - exists []. now rewrite app_nil_r.
  - destruct (try_symbols_log index_name
                (symbols_to_try_for alternatives index_name symbol) st)
      as [evs1 H1].
    destruct (try_symbols index_name
                (symbols_to_try_for alternatives index_name symbol) st)
      as [st1 success].
    simpl in H1.
    match goal with
    | |- exists _, fs_log (fetch_indices _ _ ?s) = _ =>
        destruct (IH s) as [evs2 H2]; rewrite H2
    end.
    destruct success; simpl; rewrite H1, <- !app_assoc; eexists; reflexivity.
Qed.

(** The first candidate of a non-empty list is always requested. *)
Lemma try_symbols_first (index_name c : string) (cs : list string)
      (st : fetch_state) :
  exists o,
    In (index_name, c, o)
       (requests (fs_log (fst (try_symbols index_name (c :: cs) st)))).
Proof.
  simpl. unfold request.
  destruct (session_get (fs_world st) (chart_url c)) as [o w].
  exists o.
  assert (Hin : forall st1 evs,
             fs_log st1 = (fs_log st ++ [Request index_name c o]) ++ evs ->
             In (index_name, c, o) (requests (fs_log st1))).
  { intros st1 evs ->. rewrite !requests_app. apply in_or_app. left.
    apply in_or_app. right. now left. }
  destruct (parse_attempt o) as [[|today [|yesterday more]]| |];
    try (match goal with
         | |- context [try_symbols index_name cs ?s] =>
             destruct (try_symbols_log index_name cs s) as [evs He];
             apply (Hin _ ([Pause 300] ++ evs)); rewrite He; simpl;
             now rewrite <- !app_assoc
         end).
  - apply (Hin _ []). simpl. now rewrite app_nil_r.
  - match goal with
    | |- context [try_symbols index_name cs ?s] =>
        destruct (try_symbols_log index_name cs s) as [evs He];
        apply (Hin _ evs); rewrite He; reflexivity
    end.
Qed.

Lemma fetch_indices_first (alternatives : dict (list string)) :
  forall (items : dict string) (st : fetch_state)
         (index_name symbol c : string) (cs : list string),
    In (index_name, symbol) items ->
    symbols_to_try_for alternatives index_name symbol = c :: cs ->
    exists o,
      In (index_name, c, o)
         (requests (fs_log (fetch_indices alternatives items st))).
Proof.
  induction items as [|[n s] items IH];
    intros st index_name symbol c cs Hin Hc; [contradiction |].
  simpl. destruct Hin as [Heq|Hin].
  - injection Heq as -> ->. rewrite Hc.
    destruct (try_symbols_first index_name c cs st) as [o Ho].
    destruct (try_symbols index_name (c :: cs) st) as [st1 success].
    simpl in Ho. exists o.
    match goal with
    | |- In _ (requests (fs_log (fetch_indices _ _ ?s))) =>
        destruct (fetch_indices_log alternatives items s) as [evs He];
        rewrite He
    end.
    rewrite requests_app. apply in_or_app. left.
    destruct success; simpl; rewrite ?requests_app;
      repeat (apply in_or_app; left); assumption.
  - destruct (try_symbols n (symbols_to_try_for alternatives n s) st)
      as [st1 success].
    eapply IH; eassumption.
Qed.

Lemma initial_paired (w : world) : paired (initial_state w).
Proof. split; [reflexivity | intros ? ? H; discriminate]. Qed.

(** C2: after the fetch phase an instrument has a record, in either map,
    only if one of the requests made for it yielded at least two valid
    bars; an instrument of which every request failed or yielded fewer
    bars is in neither map; and the phase goes on whatever happens to an
    instrument: every instrument of the table has its first candidate
    requested. *)
Theorem C2_record_needs_two_bars (alternatives : dict (list string))
        (items : dict string) (w : world) :
  let st := fetch_all alternatives items w in
  (forall index_name,
      In index_name (dict_keys (today_open_data st))
      \/ In index_name (dict_keys (yesterday_data st)) ->
      exists c o,
        In (index_name, c, o) (requests (fs_log st)) /\ two_bars o)
  /\ (forall index_name,
         (forall c o, In (index_name, c, o) (requests (fs_log st)) ->
                      ~ two_bars o) ->
         ~ In index_name (dict_keys (today_open_data st))
         /\ ~ In index_name (dict_keys (yesterday_data st)))
  /\ (forall index_name symbol c cs,
         In (index_name, symbol) items ->
         symbols_to_try_for alternatives index_name symbol = c :: cs ->
         exists o, In (index_name, c, o) (requests (fs_log st))).
Proof.
  intros st.
  destruct (fetch_indices_paired alternatives items (initial_state w)
              (initial_paired w)) as [Hk Hp].
  fold (fetch_all alternatives items w) in Hk, Hp. fold st in Hk, Hp.
  assert (Hrec : forall index_name,
             In index_name (dict_keys (today_open_data st))
             \/ In index_name (dict_keys (yesterday_data st)) ->
             exists c o,
               In (index_name, c, o) (requests (fs_log st)) /\ two_bars o).
  { intros index_name Hin.
    assert (Ht : In index_name (dict_keys (today_open_data st)))
      by (destruct Hin; [assumption | now rewrite Hk]).
    apply dict_get_in_keys in Ht.
    destruct (dict_get index_name (today_open_data st)) as [t|] eqn:Hget;
      [| congruence].
    destruct (Hp _ _ Hget) as (c & o & tb & yb & more & Hreq & Hparse & _).
    exists c, o. split; [assumption |].
    exists (tb :: yb :: more). split; [assumption | simpl; lia]. }
  split; [exact Hrec |]. split.
  - intros index_name Hnone.
    split; intros Hin;
      [destruct (Hrec index_name (or_introl Hin)) as (c & o & Hreq & Htwo)
      |destruct (Hrec index_name (or_intror Hin)) as (c & o & Hreq & Htwo)];
      exact (Hnone c o Hreq Htwo).
  - intros index_name symbol c cs Hin Hc.
    exact (fetch_indices_first alternatives items (initial_state w)
             index_name symbol c cs Hin Hc).
Qed.

(** C10: the two maps returned by the fetch phase have the same keys, in
    the same order, and the two records of an instrument were stored by
    one attempt: they name the same candidate and come from the first and
    the second bar of the list parsed from that candidate's response. *)
Theorem C10_maps_share_keys (alternatives : dict (list string))
        (items : dict string) (w : world) :
  let st := fetch_all alternatives items w in
  dict_keys (today_open_data st) = dict_keys (yesterday_data st)
  /\ (forall index_name,
         dict_get index_name (today_open_data st) = None
         <-> dict_get index_name (yesterday_data st) = None)
  /\ (forall index_name t y,
         dict_get index_name (today_open_data st) = Some t ->
         dict_get index_name (yesterday_data st) = Some y ->
         exists c o today yesterday more,
           In (index_name, c, o) (requests (fs_log st))
           /\ parse_attempt o = Bars (today :: yesterday :: more)
           /\ t = make_today today c
           /\ y = make_yesterday yesterday c).
Proof.
  intros st.
  destruct (fetch_indices_paired alternatives items (initial_state w)
              (initial_paired w)) as [Hk Hp].
  fold (fetch_all alternatives items w) in Hk, Hp. fold st in Hk, Hp.
  split; [exact Hk |]. split.
  - intros index_name.
    pose proof (dict_get_in_keys index_name (today_open_data st)) as Ht.
    pose proof (dict_get_in_keys index_name (yesterday_data st)) as Hy.
    rewrite Hk in Ht.
    destruct (dict_get index_name (today_open_data st)),
      (dict_get index_name (yesterday_data st));
      split; intros H; try reflexivity; try discriminate; exfalso.
    + apply (proj1 Hy); [apply Ht; discriminate | reflexivity].
    + apply (proj1 Ht); [apply Hy; discriminate | reflexivity].
  - intros index_name t y Ht Hy.
    destruct (Hp _ _ Ht) as (c & o & tb & yb & more & Hreq & Hparse & Heq
                             & Hy').
    exists c, o, tb, yb, more. repeat split; auto. congruence.
Qed.

End FetchPhase.

(** *** Record construction *)

Section Records.
Context {R : Runtime}.

Lemma rounded_nonzero (q : Q) :
  truthy q = true -> rounded (Some q) = Num (round2 q).
Proof. unfold rounded. now intros ->. Qed.

Lemma rounded_absent : rounded None = NA.
Proof. reflexivity. Qed.

Lemma rounded_zero (q : Q) : truthy q = false -> rounded (Some q) = NA.
Proof. unfold rounded. now intros ->. Qed.

(** A record keeps the date and the candidate, and every price it stores
    is a price of its bar, whatever the bar holds. *)
Lemma make_today_fields (today : bar) (c : string) :
  today_date (make_today today c) = Some (bar_date today)
  /\ today_open (make_today today c) = Some (rounded (bar_open today))
  /\ today_symbol_used (make_today today c) = Some c.
Proof. repeat split. Qed.

End Records.

(** C5, at a most recent bar whose open is the number 0: the bar has an
    open, it is not absent, and yet the record stores ['N/A'] for it and not
    the number rounded.  The open of the bar before it, not zero, is stored
    rounded to two decimals. *)
Theorem C5_zero_price_stored_as_placeholder :
  let st := get_simplified_stock_data (sample_script [zero_open_ok] []) in
  (exists today yesterday more,
      parse_attempt zero_open_ok = Bars (today :: yesterday :: more)
      /\ bar_open today = Some 0%Q
      /\ bar_open yesterday = Some 21751.35%Q)
  /\ option_map today_open (dict_get "NIFTY 50" (today_open_data st))
     = Some (Some NA)
  /\ option_map yesterday_open (dict_get "NIFTY 50" (yesterday_data st))
     = Some (Some (Num (round2 21751.35%Q))).
Proof.
  split.
  - do 3 eexists. split; [vm_compute; reflexivity |]. split; reflexivity.
  - split; vm_compute; reflexivity.
Qed.

(** *** Notifier *)

Section Notifier.
Context {R : Runtime}.

Lemma post_answers_length (message : string) :
  forall n w, List.length (post_answers w message n) = n.
Proof.
  induction n as [|n IH]; intros w; simpl; auto.
  destruct (session_post w message) as [o w1]. simpl. now rewrite IH.
Qed.

Lemma outcomes_trace : forall outs k, outcomes (trace k outs) = outs.
Proof.
  induction outs as [|o rest IH]; intros k; [reflexivity |].
  destruct rest as [|o' rest']; [reflexivity |].
  change (outcomes (trace k (o :: o' :: rest')))
    with (o :: outcomes (trace (S k) (o' :: rest'))).
  f_equal. apply IH.
Qed.

(** What a run of the loop over attempts [k, k+1, ..., k+n-1] does, with
    [max_retries = k + n]. *)
Lemma send_attempts_spec (message : string) :
  forall n k w log,
    let r := send_attempts message (k + n) (seq k n) w log in
    exists outs rest,
      post_answers w message n = outs ++ rest
      /\ snd r = log ++ trace k outs
      /\ (n <> 0 -> outs <> [])
      /\ if fst (fst r)
         then exists pre, outs = pre ++ [PostResponse 200] /\ Forall failed pre
         else rest = [] /\ Forall failed outs.
Proof.
  induction n as [|n IH]; intros k w log; simpl.
  - exists [], [].
    split; [reflexivity |]. split; [simpl; now rewrite app_nil_r |].
    split; [intros H; now elim H |]. split; [reflexivity | constructor].
  - destruct (session_post w message) as [o w1] eqn:Hpost.
    assert (Hlast : n = 0 -> failed o ->
              exists outs rest,
                o :: post_answers w1 message n = outs ++ rest
                /\ (log ++ [Posted k o]) = log ++ trace k outs
                /\ (S n <> 0 -> outs <> [])
                /\ rest = [] /\ Forall failed outs).
    { intros -> Hf. exists [o], []. simpl. repeat split; auto.
      discriminate. }
    assert (Hmore : forall s, n <> 0 -> failed o -> s = wait_after (S k) o ->
              let r := send_attempts message (k + S n) (seq (S k) n) w1
                         ((log ++ [Posted k o]) ++ [Slept s]) in
              exists outs rest,
                o :: post_answers w1 message n = outs ++ rest
                /\ snd r = log ++ trace k outs
                /\ (S n <> 0 -> outs <> [])
                /\ if fst (fst r)
                   then exists pre,
                       outs = pre ++ [PostResponse 200] /\ Forall failed pre
                   else rest = [] /\ Forall failed outs).
    { intros s Hn Hf -> r. subst r.
      replace (k + S n) with (S k + n) by lia.
      destruct (IH (S k) w1 ((log ++ [Posted k o])
                               ++ [Slept (wait_after (S k) o)]))
        as (outs & rest & Ha & Hl & Hne & Hres).
      exists (o :: outs), rest.
      split; [simpl; now rewrite Ha |].
      split.
      - rewrite Hl. destruct outs as [|o' outs']; [now elim (Hne Hn) |].
        change (trace k (o :: o' :: outs'))
          with (Posted k o :: Slept (wait_after (S k) o)
                       :: trace (S k) (o' :: outs')).
        now rewrite <- !app_assoc.
      - split; [discriminate |].
        destruct (fst (fst (send_attempts message (S k + n) (seq (S k) n) w1
                              ((log ++ [Posted k o])
                                 ++ [Slept (wait_after (S k) o)])))).
        + destruct Hres as (pre & -> & Hpre).
          exists (o :: pre). split; [reflexivity | now constructor].
        + destruct Hres as [-> Hall]. split; [reflexivity | now constructor]. }
    assert (Hk : (k <? k + S n - 1) = negb (n =? 0)).
    { destruct n; simpl.
      - replace (k + 1 - 1) with k by lia. apply Nat.ltb_irrefl.
      - apply Nat.ltb_lt. lia. }
    rewrite Hk.
    destruct o as [status_code| | |].
    + destruct (Z.eqb_spec status_code 200) as [->|Hne].
      * simpl. exists [PostResponse 200], (post_answers w1 message n).
        repeat split; auto; try discriminate.
        exists []. split; [reflexivity | constructor].
      * assert (Hf : failed (PostResponse status_code)).
        { unfold failed, failure_of.
          destruct (Z.eqb_spec status_code 200); congruence. }
        destruct (Nat.eqb_spec n 0) as [Hn|Hn]; simpl negb; cbv iota.
        -- simpl. apply Hlast; assumption.
        -- apply Hmore; auto. unfold wait_after, failure_of.
           destruct (Z.eqb_spec status_code 200); [congruence | reflexivity].
    + assert (Hf : failed PostConnectionError) by discriminate.
      destruct (Nat.eqb_spec n 0) as [Hn|Hn]; simpl negb; cbv iota.
      * simpl. apply Hlast; assumption.
      * apply Hmore; auto. unfold wait_after. simpl. lia.
    + assert (Hf : failed PostTimeout) by discriminate.
      destruct (Nat.eqb_spec n 0) as [Hn|Hn]; simpl negb; cbv iota.
      * simpl. apply Hlast; assumption.
      * apply Hmore; auto. unfold wait_after. simpl. lia.
    + assert (Hf : failed PostUnexpected) by discriminate.
      destruct (Nat.eqb_spec n 0) as [Hn|Hn]; simpl negb; cbv iota.
      * simpl. apply Hlast; assumption.
      * apply Hmore; auto.
Qed.

End Notifier.

Section Sending.
Context {R : Runtime}.

Lemma send_telegram_message_spec (message : string) (w : world) :
  let r := send_telegram_message message w in
  exists outs rest,
    post_answers w message 3 = outs ++ rest
    /\ snd r = trace 0 outs
    /\ outs <> []
    /\ if fst (fst r)
       then exists pre, outs = pre ++ [PostResponse 200] /\ Forall failed pre
       else rest = [] /\ Forall failed outs.
Proof.
  destruct (send_attempts_spec message 3 0 w [])
    as (outs & rest & Ha & Hl & Hne & Hres).
  exists outs, rest. repeat split; auto.
Qed.

Lemma not_failed_200 : ~ failed (PostResponse 200).
Proof. intros H. now apply H. Qed.

(** C3, with success read as the source reads it (status 200): a send
    makes between one and three posts, one after the other; it returns
    [True] exactly when the last post it made is the first one answered
    with status 200, and [False] only after three posts that all failed.
    It is a total function to booleans: no failure of a post escapes it. *)
Theorem C3_send_stops_at_first_200 (message : string) (w : world) :
  let r := send_telegram_message message w in
  let outs := outcomes (snd r) in
  (exists rest, post_answers w message 3 = outs ++ rest)
  /\ 1 <= List.length outs <= 3
  /\ if fst (fst r)
     then exists pre, outs = pre ++ [PostResponse 200] /\ Forall failed pre
     else List.length outs = 3 /\ Forall failed outs.
Proof.
  intros r outs.
  destruct (send_telegram_message_spec message w)
    as (outs' & rest & Ha & Hl & Hne & Hres).
  fold r in Hl, Hres.
  assert (Ho : outs = outs')
    by (unfold outs; rewrite Hl; apply outcomes_trace).
  rewrite Ho. clear Ho outs.
  pose proof (post_answers_length message 3 w) as Hlen.
  rewrite Ha, length_app in Hlen.
  split; [now exists rest |]. split.
  - destruct outs'; [congruence | simpl in *; lia].
  - destruct (fst (fst r)); [assumption |].
    destruct Hres as [-> Hall]. simpl in Hlen. split; [lia | assumption].
Qed.

(** C7: when all three attempts of a send fail, the send returns [False]
    and its log is post, wait, post, wait, post: the wait after the first
    and after the second attempt is the one of the failure class of that
    attempt (2 for an HTTP failure, twice the attempt number for a
    connection error or a timeout, 3 for an unexpected error), and
    nothing follows the third post. *)
Theorem C7_waits_by_failure_class (message : string) (w : world) :
  Forall failed (post_answers w message 3) ->
  let r := send_telegram_message message w in
  fst (fst r) = false
  /\ exists o1 o2 o3 e1 e2,
      post_answers w message 3 = [o1; o2; o3]
      /\ failure_of o1 = Some e1
      /\ failure_of o2 = Some e2
      /\ snd r = [Posted 0 o1; Slept (backoff 1 e1);
                  Posted 1 o2; Slept (backoff 2 e2); Posted 2 o3]
      /\ waits (snd r) = [backoff 1 e1; backoff 2 e2].
Proof.
  intros Hall r.
  destruct (send_telegram_message_spec message w)
    as (outs & rest & Ha & Hl & Hne & Hres).
  fold r in Hl, Hres.
  destruct (fst (fst r)).
  - exfalso. destruct Hres as (pre & -> & _).
    rewrite Ha, <- app_assoc in Hall.
    apply Forall_app in Hall as [_ Hall].
    inversion Hall as [|? ? H200 _]. now apply not_failed_200.
  - split; [reflexivity |].
    destruct Hres as [-> _]. rewrite app_nil_r in Ha.
    pose proof (post_answers_length message 3 w) as Hlen.
    rewrite Ha in *.
    destruct outs as [|o1 [|o2 [|o3 [|o4 outs]]]]; try discriminate.
    inversion Hall as [|? ? H1 Hall']. inversion Hall' as [|? ? H2 _].
    unfold failed in H1, H2.
    destruct (failure_of o1) as [e1|] eqn:E1; [| congruence].
    destruct (failure_of o2) as [e2|] eqn:E2; [| congruence].
    exists o1, o2, o3, e1, e2.
    rewrite Hl. simpl. unfold wait_after. rewrite E1, E2.
    repeat split.
Qed.

End Sending.

(** With 204 on every attempt the send gives up: three answers of the 2xx
    family, and the result is [False]. *)
Lemma C3_counterexample_204 :
  send_telegram_message "report"
    (sample_script [] [PostResponse 204; PostResponse 204; PostResponse 204])
  = (false, sample_script [] [],
     [Posted 0 (PostResponse 204); Slept 2; Posted 1 (PostResponse 204);
      Slept 2; Posted 2 (PostResponse 204)])
  /\ forallb is_2xx [PostResponse 204; PostResponse 204; PostResponse 204]
     = true.
Proof. split; vm_compute; reflexivity. Qed.

(** Three timeouts: the send fails after waiting 2 and then 4 seconds. *)
Lemma C7_witness_timeouts :
  let w := sample_script [] [PostTimeout; PostTimeout; PostTimeout] in
  let r := send_telegram_message "report" w in
  fst (fst r) = false
  /\ exists o1 o2 o3 e1 e2,
      post_answers w "report" 3 = [o1; o2; o3]
      /\ failure_of o1 = Some e1
      /\ failure_of o2 = Some e2
      /\ snd r = [Posted 0 o1; Slept (backoff 1 e1);
                  Posted 1 o2; Slept (backoff 2 e2); Posted 2 o3]
      /\ waits (snd r) = [backoff 1 e1; backoff 2 e2].
Proof.
  apply (@C7_waits_by_failure_class scripted_runtime "report"
           (sample_script [] [PostTimeout; PostTimeout; PostTimeout])).
  vm_compute. repeat constructor; discriminate.
Defined.

(** The two scenarios of the notifier, run. *)
Example send_500_500_200 :
  let r := send_telegram_message "report"
             (sample_script [] [PostResponse 500; PostResponse 500;
                                PostResponse 200]) in
  fst (fst r) = true /\ waits (snd r) = [2; 2].
Proof. split; vm_compute; reflexivity. Qed.

Example send_three_timeouts :
  let r := send_telegram_message "report"
             (sample_script [] [PostTimeout; PostTimeout; PostTimeout]) in
  fst (fst r) = false /\ waits (snd r) = [2; 4].
Proof. split; vm_compute; reflexivity. Qed.

(** *** Report builder *)

Lemma string_app_assoc (a b c : string) : ((a ++ b) ++ c = a ++ (b ++ c))%string.
Proof. induction a as [|x a IH]; simpl; [reflexivity | now rewrite IH]. Qed.

Lemma all_expected_nodup : NoDup all_expected_indices.
Proof.
  unfold all_expected_indices.
  repeat (constructor; [simpl; intuition discriminate |]). constructor.
Qed.

Section ReportProperties.
Context {R : Runtime}.

Lemma missing_from_spec {V} (d : dict V) (index_name : string) :
  In index_name (missing_from d)
  <-> In index_name all_expected_indices /\ ~ In index_name (dict_keys d).
Proof.
  unfold missing_from. rewrite filter_In, negb_true_iff.
  rewrite <- (dict_has_in index_name d).
  destruct (dict_has index_name d); intuition congruence.
Qed.

Lemma missing_from_nil {V} (d : dict V) :
  missing_from d = []
  <-> forall index_name,
      In index_name all_expected_indices -> In index_name (dict_keys d).
Proof.
  split.
  - intros Hnil index_name Hin.
    destruct (in_dec string_dec index_name (dict_keys d)) as [|Hno];
      [assumption |].
    assert (H : In index_name (missing_from d))
      by (apply missing_from_spec; auto).
    rewrite Hnil in H. contradiction.
  - intros Hall. destruct (missing_from d) as [|x l] eqn:E; [reflexivity |].
    assert (H : In x (missing_from d)) by (rewrite E; now left).
    apply missing_from_spec in H as [Hin Hno]. now elim Hno; apply Hall.
Qed.

Lemma missing_line_listing (label : string) (missing : list string) :
  missing_line label missing = listing label (set_iter missing).
Proof.
  unfold missing_line, listing.
  pose proof (set_iter_perm missing) as Hp.
  destruct missing as [|x l].
  - apply Permutation_nil in Hp. now rewrite Hp.
  - destruct (set_iter (x :: l)) as [|y l'] eqn:E; [| reflexivity].
    apply Permutation_sym, Permutation_nil in Hp. discriminate.
Qed.

Lemma set_iter_missing {V} (d : dict V) :
  NoDup (set_iter (missing_from d))
  /\ forall index_name,
      In index_name (set_iter (missing_from d))
      <-> In index_name all_expected_indices
          /\ ~ In index_name (dict_keys d).
Proof.
  pose proof (set_iter_perm (missing_from d)) as Hp. split.
  - apply (Permutation_NoDup Hp). apply NoDup_filter, all_expected_nodup.
  - intros index_name. rewrite <- missing_from_spec. split.
    + apply Permutation_in. now apply Permutation_sym.
    + now apply Permutation_in.
Qed.

Lemma data_status_empty (missing_today missing_yesterday : list string) :
  data_status missing_today missing_yesterday = ""
  <-> missing_today = [] /\ missing_yesterday = [].
Proof.
  unfold data_status, newline.
  destruct missing_today, missing_yesterday; simpl;
    split; try tauto; try discriminate; intros [? ?]; discriminate.
Qed.

Lemma format_not_both_empty (w : world) (today : dict today_record)
      (yesterday : dict yesterday_record) :
  today <> [] \/ yesterday <> [] ->
  format_simplified_message w today yesterday
  = report_text (datetime_now w) today yesterday.
Proof.
  unfold format_simplified_message.
  destruct today, yesterday; try reflexivity.
  intros [H|H]; now elim H.
Qed.

(** C8, for maps that are not both empty: the text is the greeting, the
    two sections with their headers and blocks, the data status section
    and the footer, in this order and nothing else; the data status
    section is empty exactly when each of the four expected instruments is
    a key of both maps, and otherwise it is its header and the two lines,
    the line of a map naming, once each, exactly the expected instruments
    that are not keys of that map (and left out when there is none). *)
Theorem C8_data_status_names_missing (w : world)
        (today : dict today_record) (yesterday : dict yesterday_record) :
  today <> [] \/ yesterday <> [] ->
  exists section names_today names_yesterday,
    format_simplified_message w today yesterday
    = (greeting (datetime_now w)
       ++ today_header (today_date_of today)
       ++ String.concat "" (map today_block today)
       ++ yesterday_header (yesterday_date_of yesterday)
       ++ String.concat "" (map yesterday_block yesterday)
       ++ section ++ footer)%string
    /\ (section = ""
        <-> forall index_name,
            In index_name all_expected_indices ->
            In index_name (dict_keys today)
            /\ In index_name (dict_keys yesterday))
    /\ (section <> "" ->
        section
        = (newline ++ icon_warning ++ " *Data Status*" ++ newline
           ++ listing "Missing today's data: " names_today
           ++ listing "Missing yesterday's data: " names_yesterday)%string)
    /\ NoDup names_today
    /\ NoDup names_yesterday
    /\ (forall index_name,
           In index_name names_today
           <-> In index_name all_expected_indices
               /\ ~ In index_name (dict_keys today))
    /\ (forall index_name,
           In index_name names_yesterday
           <-> In index_name all_expected_indices
               /\ ~ In index_name (dict_keys yesterday)).
Proof.
  intros Hne. rewrite (format_not_both_empty w today yesterday Hne).
  exists (data_status (missing_from today) (missing_from yesterday)),
    (set_iter (missing_from today)), (set_iter (missing_from yesterday)).
  destruct (set_iter_missing today) as [Hnt Hint].
  destruct (set_iter_missing yesterday) as [Hny Hiny].
  split; [reflexivity |].
  split.
  - rewrite data_status_empty, !missing_from_nil. split.
    + intros [Ht Hy] index_name Hin. split; auto.
    + intros H. split; intros index_name Hin; now apply H.
  - split; [| split; [assumption | split; [assumption | split; assumption]]].
    intros Hsec. unfold data_status in *.
    rewrite <- !missing_line_listing.
    destruct (missing_from today), (missing_from yesterday);
      try reflexivity. now elim Hsec.
Qed.

(** C9, for maps that are not both empty: the header of each section
    shows the date of the first record of its map, the generic label
    ['Today'] or ['Yesterday'] when that record has no date, and an empty
    date, not a label, when its map is empty. *)
Theorem C9_header_shows_first_date (w : world)
        (today : dict today_record) (yesterday : dict yesterday_record) :
  today <> [] \/ yesterday <> [] ->
  exists before between after,
    format_simplified_message w today yesterday
    = (before
       ++ " *Today's Opening (" ++ shown_date today_date "Today" today
       ++ ")*" ++ between
       ++ " *Yesterday's OHLC ("
       ++ shown_date yesterday_date "Yesterday" yesterday
       ++ ")*" ++ after)%string
    /\ before = (greeting (datetime_now w) ++ icon_sunrise)%string
    /\ between
       = (newline ++ rule_line ++ newline
          ++ String.concat "" (map today_block today)
          ++ newline ++ icon_chart)%string.
Proof.
  intros Hne. rewrite (format_not_both_empty w today yesterday Hne).
  do 3 eexists. split; [| split; reflexivity].
  unfold report_text, today_header, yesterday_header.
  assert (Ht : today_date_of today = shown_date today_date "Today" today)
    by (unfold today_date_of, shown_date; now destruct today as [|[? ?] ?]).
  assert (Hy : yesterday_date_of yesterday
               = shown_date yesterday_date "Yesterday" yesterday)
    by (unfold yesterday_date_of, shown_date;
        now destruct yesterday as [|[? ?] ?]).
  rewrite Ht, Hy, !string_app_assoc. reflexivity.
Qed.

End ReportProperties.

(** A set of at most one string is iterated in one way only. *)
Lemma set_iter_short {R : Runtime} (l : list string) :
  List.length l <= 1 -> set_iter l = l.
Proof.
  intros Hlen. pose proof (set_iter_perm l) as Hp.
  destruct l as [|x [|y l]]; simpl in Hlen; try lia.
  - now apply Permutation_nil in Hp.
  - now apply Permutation_length_1_inv in Hp.
Qed.

(** C6: two calls of the report builder, in the same run of the program or
    in two, give the same text when they are given the same two maps, read
    the same time from the clock, print numbers alike and iterate alike the
    set of the instruments missing from each map.  The last condition is
    met of itself by a set of at most one instrument; with two or more the
    order of the names in a line of the data status section is the order of
    the iteration, which the maps and the time do not determine. *)
Theorem C6_same_text_up_to_set_order (R1 R2 : Runtime)
        (w1 : @world R1) (w2 : @world R2)
        (today : dict today_record) (yesterday : dict yesterday_record) :
  @datetime_now R1 w1 = @datetime_now R2 w2 ->
  (forall q, @str_of_number R1 q = @str_of_number R2 q) ->
  (List.length (missing_from today) <= 1
   \/ @set_iter R1 (missing_from today) = @set_iter R2 (missing_from today)) ->
  (List.length (missing_from yesterday) <= 1
   \/ @set_iter R1 (missing_from yesterday)
      = @set_iter R2 (missing_from yesterday)) ->
  @format_simplified_message R1 w1 today yesterday
  = @format_simplified_message R2 w2 today yesterday.
Proof.
  intros Hnow Hstr Ht Hy.
  assert (Ht' : @set_iter R1 (missing_from today)
                = @set_iter R2 (missing_from today))
    by (destruct Ht as [Hlen|H]; [now rewrite !set_iter_short | exact H]).
  assert (Hy' : @set_iter R1 (missing_from yesterday)
                = @set_iter R2 (missing_from yesterday))
    by (destruct Hy as [Hlen|H]; [now rewrite !set_iter_short | exact H]).
  assert (Hshow : forall v, @show_value R1 v = @show_value R2 v)
    by (intros [[q|]|]; simpl; auto).
  assert (Htb : map (@today_block R1) today = map (@today_block R2) today).
  { apply map_ext. intros [index_name values]. unfold today_block.
    now rewrite Hshow. }
  assert (Hyb : map (@yesterday_block R1) yesterday
                = map (@yesterday_block R2) yesterday).
  { apply map_ext. intros [index_name values]. unfold yesterday_block.
    now rewrite !Hshow. }
  unfold format_simplified_message, report_text, data_status, missing_line.
  now rewrite Hnow, Htb, Hyb, Ht', Hy'.
Qed.

(** *** The properties at sample inputs *)

(** Two runtimes that agree on the clock and on the printing of numbers
    and iterate sets in opposite orders: with three instruments missing the
    two texts differ. *)
Lemma C6_counterexample_set_order :
  @datetime_now scripted_runtime (sample_script [] [])
  = @datetime_now reversed_sets_runtime (sample_script [] [])
  /\ String.eqb
       (@format_simplified_message scripted_runtime (sample_script [] [])
          [("NIFTY 50", sample_today_record)] [])
       (@format_simplified_message reversed_sets_runtime (sample_script [] [])
          [("NIFTY 50", sample_today_record)] [])
     = false.
Proof. split; vm_compute; reflexivity. Qed.

(** The same two runtimes with one instrument missing from each map: the
    texts are equal. *)
Lemma C6_witness :
  let today := [("NIFTY 50", sample_today_record);
                ("NIFTY BANK", sample_today_record);
                ("NIFTY MID SELECT", sample_today_record)] in
  let yesterday := [("NIFTY BANK", sample_yesterday_record);
                    ("NIFTY MID SELECT", sample_yesterday_record);
                    ("NIFTY FINANCIAL SERVICES", sample_yesterday_record)] in
  @format_simplified_message scripted_runtime
    (sample_script [sample_ok] [PostTimeout]) today yesterday
  = @format_simplified_message reversed_sets_runtime
      (sample_script [] []) today yesterday.
Proof.
  intros today yesterday.
  apply (C6_same_text_up_to_set_order scripted_runtime reversed_sets_runtime
           (sample_script [sample_ok] [PostTimeout]) (sample_script [] [])).
  - reflexivity.
  - intros q. reflexivity.
  - left. vm_compute. lia.
  - left. vm_compute. lia.
Defined.

(** Both maps empty: all four instruments are missing, and the text is the
    fixed message, without a data status section. *)
Lemma C8_counterexample_both_empty :
  format_simplified_message (sample_script [] []) [] [] = no_data_message
  /\ occurs "Data Status"
            (format_simplified_message (sample_script [] []) [] []) = false
  /\ missing_from (@nil (string * today_record)) = all_expected_indices
  /\ missing_from (@nil (string * yesterday_record)) = all_expected_indices.
Proof. repeat split; vm_compute; reflexivity. Qed.

Lemma C8_witness :
  exists names_today names_yesterday,
    format_simplified_message (sample_script [] [])
      [("NIFTY 50", sample_today_record)] []
    = (greeting (datetime_now (sample_script [] []))
       ++ today_header "2024-01-03"
       ++ today_block ("NIFTY 50", sample_today_record)
       ++ yesterday_header ""
       ++ (newline ++ icon_warning ++ " *Data Status*" ++ newline
           ++ listing "Missing today's data: " names_today
           ++ listing "Missing yesterday's data: " names_yesterday)
       ++ footer)%string
    /\ (In "NIFTY 50" names_yesterday /\ ~ In "NIFTY 50" names_today).
Proof.
  assert (Hne : [("NIFTY 50", sample_today_record)] <> []
                \/ @nil (string * yesterday_record) <> [])
    by (left; discriminate).
  assert (Hfirst : In "NIFTY 50" all_expected_indices) by (now left).
  pose proof (@C8_data_status_names_missing scripted_runtime
                (sample_script [] []) [("NIFTY 50", sample_today_record)] []
                Hne) as H.
  destruct H as (section & names_today & names_yesterday
                 & Htext & Hempty & Hsection & _ & _ & Htoday & Hyesterday).
  exists names_today, names_yesterday. split.
  - rewrite Htext, Hsection.
    + cbn [map String.concat today_date_of yesterday_date_of dict_values
           snd today_date sample_today_record].
      now rewrite string_app_assoc.
    + intros Hnil.
      destruct (proj1 Hempty Hnil "NIFTY 50" Hfirst) as [_ []].
  - split.
    + apply Hyesterday. split; [exact Hfirst | intros []].
    + intros Hin. apply Htoday in Hin as [_ Hno]. apply Hno. now left.
Defined.

(** No record for today, one for yesterday: the first header shows an empty
    date between its parentheses, not the label. *)
Lemma C9_counterexample_empty_today :
  let text :=
    format_simplified_message (sample_script [] [])
      [] [("NIFTY 50", sample_yesterday_record)] in
  occurs "*Today's Opening ()*" text = true
  /\ occurs "*Today's Opening (Today)*" text = false
  /\ occurs "*Yesterday's OHLC (2024-01-02)*" text = true.
Proof. repeat split; vm_compute; reflexivity. Qed.

Lemma C9_witness :
  exists before between after,
    format_simplified_message (sample_script [] [])
      [("NIFTY 50", sample_today_record)]
      [("NIFTY 50", sample_yesterday_record)]
    = (before ++ " *Today's Opening (2024-01-03)*" ++ between
       ++ " *Yesterday's OHLC (2024-01-02)*" ++ after)%string.
Proof.
  assert (Hne : [("NIFTY 50", sample_today_record)] <> []
                \/ [("NIFTY 50", sample_yesterday_record)] <> [])
    by (left; discriminate).
  pose proof (@C9_header_shows_first_date scripted_runtime
                (sample_script [] []) [("NIFTY 50", sample_today_record)]
                [("NIFTY 50", sample_yesterday_record)] Hne) as H.
  destruct H as (before & between & after & Htext & _).
  exists before, between, after. exact Htext.
Defined.

(** The first candidate answers with a body that is not JSON, the second
    with three sessions: the records name the second candidate. *)
Example resolver_skips_invalid_json :
  let r := try_symbols "NIFTY MID SELECT" ["NIFTY_MID_SELECT.NS"; "^NSEMDCP50"]
             (initial_state
                (sample_script [GetResponse 200 BadJson; sample_ok] [])) in
  snd r = true
  /\ option_map today_symbol_used
                (dict_get "NIFTY MID SELECT" (today_open_data (fst r)))
     = Some (Some "^NSEMDCP50")
  /\ option_map yesterday_symbol_used
                (dict_get "NIFTY MID SELECT" (yesterday_data (fst r)))
     = Some (Some "^NSEMDCP50").
Proof. repeat split; vm_compute; reflexivity. Qed.

(** One instrument answers with three sessions and every other request
    fails: the report shows its open of 3 January and its prices of
    2 January, and names the other three instruments as missing. *)
Example one_instrument_fetched :
  let st := get_simplified_stock_data (sample_script [sample_ok] []) in
  let text := format_simplified_message (fs_world st) (today_open_data st)
                                        (yesterday_data st) in
  dict_keys (today_open_data st) = ["NIFTY 50"]
  /\ dict_keys (yesterday_data st) = ["NIFTY 50"]
  /\ List.length (requests (fs_log st)) = 7
  /\ occurs "*Today's Opening (2024-01-03)*" text = true
  /\ occurs "*Yesterday's OHLC (2024-01-02)*" text = true
  /\ occurs "   High: N/A" text = true
  /\ occurs "Missing today's data: NIFTY BANK, NIFTY MID SELECT, NIFTY FINANCIAL SERVICES"
            text = true.
Proof. repeat split; vm_compute; reflexivity. Qed.

(** ** Part III: further properties of the code *)

(** *** The sort and the bars *)

Lemma ltb_false_leb (a b : string) :
  String.ltb a b = false -> String.leb b a = true.
Proof.
  unfold String.ltb, String.leb. rewrite (String.compare_antisym b a).
  destruct (String.compare a b); simpl; congruence.
Qed.

Lemma sort_desc_fixed (l : list bar) : descending l -> sort_desc l = l.
Proof.
  induction l as [|b l IH]; [reflexivity |].
  intros [Hb Hl]. simpl. rewrite (IH Hl).
  destruct l as [|y ys]; [reflexivity |].
  simpl. inversion Hb as [|? ? Hy _]. now rewrite Hy.
Qed.

(** X1: the sort of [dates_data] keeps every bar, as often as it was there,
    and leaves the list in descending order of date, whatever the order of
    the response. *)
Theorem X1_sort_most_recent_first (l : list bar) :
  Permutation l (sort_desc l) /\ descending (sort_desc l).
Proof. split; [apply sort_desc_perm | apply sort_desc_descending]. Qed.

(** X2: a list that is already in descending order of date is left as it
    is, bars of equal date included; so sorting twice is sorting once. *)
Theorem X2_sort_keeps_sorted_list (l : list bar) :
  descending l ->
  sort_desc l = l /\ sort_desc (sort_desc l) = sort_desc l.
Proof.
  intros H. split; [now apply sort_desc_fixed |].
  apply sort_desc_fixed, sort_desc_descending.
Qed.

Section BarsMore.
Context {R : Runtime}.

(** The way a response becomes a list of bars. *)
Lemma parse_attempt_bars (o : get_outcome) (dates_data : list bar) :
  parse_attempt o = Bars dates_data ->
  exists result more q qs,
    o = GetResponse 200 (Chart (result :: more))
    /\ result_quote result = q :: qs
    /\ dates_data_of result q = Some dates_data.
Proof.
  unfold parse_attempt. intros H.
  destruct o as [|status_code body]; [discriminate |].
  destruct (Z.eqb_spec status_code 200) as [->|]; [| discriminate].
  destruct body as [| |[|result more]]; try discriminate.
  destruct (result_timestamp result) as [|t ts]; [discriminate |].
  destruct (result_quote result) as [|q qs] eqn:Eq; [discriminate |].
  destruct (dates_data_of result q) as [sorted|] eqn:Ed; [| discriminate].
  injection H as <-. now exists result, more, q, qs.
Qed.

Lemma dates_data_of_sorted (result : chart_result) (q : quote_data)
      (dates_data : list bar) :
  dates_data_of result q = Some dates_data ->
  exists bars,
    dates_from 0 (result_timestamp result) (quote_open q) (quote_close q)
               (quote_high q) (quote_low q) = Some bars
    /\ dates_data = sort_desc bars.
Proof.
  unfold dates_data_of. intros H.
  destruct (dates_from 0 (result_timestamp result) (quote_open q)
              (quote_close q) (quote_high q) (quote_low q)) as [bars|];
    [| discriminate].
  injection H as <-. now exists bars.
Qed.

(** X3: when an attempt yields two bars or more, no bar of the response
    has a date string greater, in the order of strings, than the one of
    the bar picked as "today", and none but today's has one greater than
    the one of the bar picked as "yesterday". *)
Theorem X3_today_has_greatest_date_string (o : get_outcome)
        (today yesterday : bar) (more : list bar) :
  parse_attempt o = Bars (today :: yesterday :: more) ->
  Forall (fun b => date_key_le b today) (yesterday :: more)
  /\ Forall (fun b => date_key_le b yesterday) more.
Proof.
  intros H.
  destruct (parse_attempt_bars o _ H) as (result & rest & q & qs & _ & _ & Hd).
  destruct (dates_data_of_sorted _ _ _ Hd) as (bars & _ & Hs).
  pose proof (sort_desc_descending bars) as Hdesc. rewrite <- Hs in Hdesc.
  destruct Hdesc as [Ht [Hy _]]. split.
  - eapply Forall_impl; [| exact Ht]. intros b. apply ltb_false_leb.
  - eapply Forall_impl; [| exact Hy]. intros b. apply ltb_false_leb.
Qed.

Lemma dates_from_none (timestamps : list Z)
      (opens closes highs lows : list (option Q)) :
  forall k,
    dates_from k timestamps opens closes highs lows = None
    <-> exists i timestamp,
        nth_error timestamps i = Some timestamp
        /\ has_item closes (k + i) = true
        /\ has_item opens (k + i) = true
        /\ fromtimestamp_date timestamp = None.
Proof.
  induction timestamps as [|timestamp rest IH]; intros k; simpl.
  - split; [discriminate |]. intros ([|i] & t & Ht & _); discriminate.
  - destruct (has_item closes k && has_item opens k) eqn:Ev.
    + apply andb_prop in Ev as [Hc Ho].
      destruct (fromtimestamp_date timestamp) as [date|] eqn:Ed.
      * destruct (dates_from (S k) rest opens closes highs lows)
          as [bars|] eqn:Em.
        -- split; [discriminate |].
           intros ([|i] & t & Ht & Hci & Hoi & Hf); simpl in Ht.
           ++ congruence.
           ++ assert (Hn : dates_from (S k) rest opens closes highs lows
                           = None).
              { apply IH. exists i, t.
                now rewrite Nat.add_succ_r in Hci, Hoi. }
              congruence.
        -- split; [intros _ | reflexivity].
           destruct (proj1 (IH (S k)) Em) as (i & t & Ht & Hci & Hoi & Hf).
           exists (S i), t. now rewrite !Nat.add_succ_r.
      * split; [intros _ | reflexivity].
        exists 0, timestamp. now rewrite Nat.add_0_r.
    + rewrite IH. split.
      * intros (i & t & Ht & Hci & Hoi & Hf).
        exists (S i), t. now rewrite !Nat.add_succ_r.
      * intros ([|i] & t & Ht & Hci & Hoi & Hf); simpl in Ht.
        -- rewrite Nat.add_0_r in Hci, Hoi. rewrite Hci, Hoi in Ev.
           discriminate.
        -- exists i, t. now rewrite Nat.add_succ_r in Hci, Hoi.
Qed.

(** X4: the bars of a response cannot be built exactly when the date
    conversion raises for the timestamp of a position that is kept (open
    and close both there and not null); a timestamp that cannot be
    converted does no harm at a position that is dropped. *)
Theorem X4_conversion_error_only_at_kept_position (result : chart_result)
        (q : quote_data) :
  dates_data_of result q = None
  <-> exists i timestamp o c,
      nth_error (result_timestamp result) i = Some timestamp
      /\ nth_error (quote_open q) i = Some (Some o)
      /\ nth_error (quote_close q) i = Some (Some c)
      /\ fromtimestamp_date timestamp = None.
Proof.
  unfold dates_data_of.
  pose proof (dates_from_none (result_timestamp result) (quote_open q)
                (quote_close q) (quote_high q) (quote_low q) 0) as Hn.
  simpl in Hn.
  destruct (dates_from 0 (result_timestamp result) (quote_open q)
              (quote_close q) (quote_high q) (quote_low q)) as [bars|];
    simpl; split.
  - discriminate.
  - intros (i & t & o & c & Ht & Ho & Hc & Hf).
    assert (Hbars : Some bars = None)
      by (apply Hn; exists i, t; unfold has_item; now rewrite Ho, Hc).
    discriminate.
  - intros _. destruct (proj1 Hn eq_refl) as (i & t & Ht & Hc & Ho & Hf).
    destruct (has_item_some _ _ Hc) as [c Hc'].
    destruct (has_item_some _ _ Ho) as [o Ho'].
    now exists i, t, o, c.
  - reflexivity.
Qed.



Lemma sort_desc_map (f : bar -> bar) :
  (forall b, bar_date (f b) = bar_date b) ->
  forall l, sort_desc (map f l) = map f (sort_desc l).
Proof.
  intros Hf.
  assert (Hins : forall b l,
             insert_desc (f b) (map f l) = map f (insert_desc b l)).
  { intros b l. induction l as [|y ys IH]; [reflexivity |].
    simpl. rewrite !Hf.
    destruct (String.ltb (bar_date b) (bar_date y)); simpl;
      [now rewrite IH | reflexivity]. }
  induction l as [|b l IH]; [reflexivity |].
  simpl. now rewrite IH, Hins.
Qed.

Lemma dates_from_without (timestamps : list Z)
      (opens closes highs lows : list (option Q)) :
  forall i,
    dates_from i timestamps opens closes [] lows
    = option_map (map clear_high)
                 (dates_from i timestamps opens closes highs lows)
    /\ dates_from i timestamps opens closes highs []
       = option_map (map clear_low)
                    (dates_from i timestamps opens closes highs lows).
Proof.
  assert (Hnone : forall i, item_or_none [] i = None)
    by (intros [|i]; reflexivity).
  induction timestamps as [|timestamp rest IH]; intros i; simpl;
    [split; reflexivity |].
  destruct (IH (S i)) as [Hh Hl]. rewrite Hh, Hl, !Hnone.
  destruct (has_item closes i && has_item opens i);
    [| split; reflexivity].
  destruct (fromtimestamp_date timestamp); [| split; reflexivity].
  destruct (dates_from (S i) rest opens closes highs lows);
    split; reflexivity.
Qed.

(** X6: taking the [high] array (or the [low] array) away from a response
    changes nothing to its bars but that price: the response gives bars
    exactly as before, as many and in the same order, each without a high
    (a low), and a record built from such a bar stores ['N/A'] for it. *)
Theorem X6_absent_array_gives_placeholder (result : chart_result)
        (q : quote_data) :
  dates_data_of result (without_high q)
  = option_map (map clear_high) (dates_data_of result q)
  /\ dates_data_of result (without_low q)
     = option_map (map clear_low) (dates_data_of result q)
  /\ (forall b c,
         yesterday_high (make_yesterday (clear_high b) c) = Some NA)
  /\ (forall b c,
         yesterday_low (make_yesterday (clear_low b) c) = Some NA).
Proof.
  unfold dates_data_of. simpl.
  destruct (dates_from_without (result_timestamp result) (quote_open q)
              (quote_close q) (quote_high q) (quote_low q) 0) as [Hh Hl].
  rewrite Hh, Hl.
  destruct (dates_from 0 (result_timestamp result) (quote_open q)
              (quote_close q) (quote_high q) (quote_low q)) as [bars|];
    simpl; repeat split; try reflexivity.
  - f_equal. now apply sort_desc_map.
  - f_equal. now apply sort_desc_map.
Qed.

End BarsMore.

(** *** The fetch phase, instrument by instrument *)

Lemma exhausted_app (l1 l2 : list fetch_event) :
  exhausted (l1 ++ l2) = exhausted l1 ++ exhausted l2.
Proof.
  induction l1 as [|[n s o|ms|n] l1 IH]; simpl; auto. now rewrite IH.
Qed.

Lemma pause_total_app (l1 l2 : list fetch_event) :
  pause_total (l1 ++ l2) = (pause_total l1 + pause_total l2)%Z.
Proof.
  induction l1 as [|[n s o|ms|n] l1 IH]; simpl; auto. rewrite IH. lia.
Qed.

Lemma dict_keys_set_in {V} (k k' : string) (v : V) (d : dict V) :
  In k' (dict_keys (dict_set k v d)) <-> k' = k \/ In k' (dict_keys d).
Proof.
  induction d as [|[k1 v1] d IH]; simpl.
  - intuition congruence.
  - destruct (String.eqb_spec k1 k) as [->|Hne]; simpl.
    + intuition congruence.
    + rewrite IH. intuition congruence.
Qed.

Section FetchMore.
Context {R : Runtime}.

Lemma answers_length :
  forall urls w outs w',
    answers w urls = (outs, w') -> List.length outs = List.length urls.
Proof.
  induction urls as [|url urls IH]; intros w outs w' H; simpl in H.
  - now injection H as <- _.
  - destruct (session_get w url) as [o w1].
    destruct (answers w1 urls) as [os w2] eqn:E.
    injection H as <- _. simpl. f_equal. eapply IH; eassumption.
Qed.

Lemma logged_in (index_name n c : string) (o : get_outcome)
      (attempted : list string) (outs : list get_outcome) :
  In (n, c, o) (logged index_name attempted outs) ->
  n = index_name /\ In (c, o) (combine attempted outs).
Proof.
  unfold logged. rewrite in_map_iff. intros ([c' o'] & Heq & Hin).
  simpl in Heq. injection Heq as <- <- <-. auto.
Qed.

Lemma logged_length (index_name : string) (attempted : list string)
      (outs : list get_outcome) :
  List.length outs = List.length attempted ->
  List.length (logged index_name attempted outs) = List.length attempted.
Proof.
  intros H. unfold logged. rewrite length_map, length_combine. lia.
Qed.

(** The events of one run of the candidate loop: requests and pauses only,
    at most one pause of 0.3 s per request. *)
Lemma try_symbols_events (index_name : string) :
  forall (symbols_to_try : list string) (st : fetch_state),
  exists evs,
    fs_log (fst (try_symbols index_name symbols_to_try st)) = fs_log st ++ evs
    /\ exhausted evs = []
    /\ (0 <= pause_total evs
        <= 300 * Z.of_nat (List.length (requests evs)))%Z.
Proof.
  induction symbols_to_try as [|c cs IH]; intros st.
  - exists []. simpl. rewrite app_nil_r. repeat split; lia.
  - cbn [try_symbols]. unfold request.
    destruct (session_get (fs_world st) (chart_url c)) as [o w].
    set (st1 := {| fs_world := w;
                   today_open_data := today_open_data st;
                   yesterday_data := yesterday_data st;
                   fs_log := fs_log st ++ [Request index_name c o] |}).
    assert (Hnext : forall pauses st2,
               fs_log st2 = fs_log st ++ Request index_name c o :: pauses ->
               pauses = [] \/ pauses = [Pause 300] ->
               exists evs,
                 fs_log (fst (try_symbols index_name cs st2))
                 = fs_log st ++ evs
                 /\ exhausted evs = []
                 /\ (0 <= pause_total evs
                     <= 300 * Z.of_nat (List.length (requests evs)))%Z).
    { intros pauses st2 Hlog Hp.
      destruct (IH st2) as (evs & Hl & He & Hb).
      exists (Request index_name c o :: pauses ++ evs).
      split; [rewrite Hl, Hlog, <- app_assoc; reflexivity |].
      destruct Hp as [-> | ->];
        cbn [requests exhausted pause_total List.length app];
        rewrite He; split; auto; lia. }
    destruct (parse_attempt o) as [[|today [|yesterday more]]| |].
    + apply (Hnext [Pause 300]); auto. simpl. now rewrite <- app_assoc.
    + apply (Hnext [Pause 300]); auto. simpl. now rewrite <- app_assoc.
    + exists [Request index_name c o].
      split; [reflexivity |]. split; [reflexivity |].
      cbn [requests pause_total List.length]. lia.
    + apply (Hnext []); auto.
    + apply (Hnext [Pause 300]); auto. simpl. now rewrite <- app_assoc.
Qed.

(** What the processing of one instrument of the table adds to the state. *)
Lemma fetch_indices_step (alternatives : dict (list string))
      (index_name symbol : string) (items : dict string) (st : fetch_state) :
  exists st2 evs attempted rest outs (ok : bool),
    fetch_indices alternatives ((index_name, symbol) :: items) st
    = fetch_indices alternatives items st2
    /\ fs_log st2 = fs_log st ++ evs
    /\ requests evs = logged index_name attempted outs
    /\ symbols_to_try_for alternatives index_name symbol = attempted ++ rest
    /\ List.length outs = List.length attempted
    /\ (symbols_to_try_for alternatives index_name symbol <> [] ->
        attempted <> [])
    /\ exhausted evs = (if ok then [] else [index_name])
    /\ (pause_total evs
        <= 300 * Z.of_nat (List.length attempted) + 500)%Z
    /\ dict_keys (today_open_data st2)
       = (if ok
          then dict_keys (dict_set index_name tt
                            (map (fun e => (fst e, tt)) (today_open_data st)))
          else dict_keys (today_open_data st))
    /\ (if ok
        then exists c o, In (c, o) (combine attempted outs) /\ two_bars o
        else Forall (fun o => ~ two_bars o) outs).
Proof.
  cbn [fetch_indices].
  destruct (try_symbols_resolved index_name
              (symbols_to_try_for alternatives index_name symbol) st)
    as (attempted & rest & outs & evs & Hc & Ha & Hl & Hr & Hres).
  destruct (try_symbols_events index_name
              (symbols_to_try_for alternatives index_name symbol) st)
    as (evs' & Hl' & He & Hp).
  assert (evs' = evs) by (rewrite Hl in Hl'; now apply app_inv_head in Hl').
  subst evs'.
  assert (Hlen : List.length outs = List.length attempted)
    by (apply answers_length in Ha; now rewrite length_map in Ha).
  rewrite Hr, (logged_length _ _ _ Hlen) in Hp.
  destruct (try_symbols index_name
              (symbols_to_try_for alternatives index_name symbol) st)
    as [st1 ok].
  simpl in Hl, Hres.
  exists (emit (Pause 500) (if ok then st1 else emit (Exhausted index_name) st1)),
    (evs ++ (if ok then [] else [Exhausted index_name]) ++ [Pause 500]),
    attempted, rest, outs, ok.
  split; [reflexivity |].
  split; [destruct ok; simpl; rewrite Hl, <- ?app_assoc; reflexivity |].
  split; [destruct ok; rewrite !requests_app; simpl;
          rewrite ?app_nil_r; assumption |].
  split; [assumption |]. split; [assumption |].
  destruct Hres as [(Hs & Hrest & Hall & Ht & Hy)
                   |(Hs & pre & pre_outs & c & o & tb & yb & more
                     & Hatt & Houts & Hall & Hparse & Hin & Ht & Hy)];
    subst ok.
  - split; [subst rest; now rewrite app_nil_r in Hc; subst |].
    split; [rewrite !exhausted_app, He; reflexivity |].
    split; [rewrite !pause_total_app; cbn [pause_total app]; lia |].
    split; [simpl; now rewrite Ht | assumption].
  - split; [intros _; subst attempted; now destruct pre |].
    split; [rewrite !exhausted_app, He; reflexivity |].
    split; [rewrite !pause_total_app; cbn [pause_total app]; lia |].
    split.
    + simpl. rewrite Ht. apply dict_keys_set.
      unfold dict_keys. rewrite map_map. simpl. reflexivity.
    + exists c, o. split.
      * rewrite Hr in Hin. now apply logged_in in Hin.
      * exists (tb :: yb :: more). split; [assumption | simpl; lia].
Qed.

End FetchMore.

Section FetchSummary.
Context {R : Runtime}.

Lemma fetch_indices_summary (alternatives : dict (list string)) :
  forall (items : dict string) (st : fetch_state),
    let st' := fetch_indices alternatives items st in
    exists evs,
      fs_log st' = fs_log st ++ evs
      /\ (forall n c o,
             In (n, c, o) (requests evs) ->
             exists symbol,
               In (n, symbol) items
               /\ In c (symbols_to_try_for alternatives n symbol))
      /\ List.length (requests evs) <= total_candidates alternatives items
      /\ (Forall (fun item =>
                    symbols_to_try_for alternatives (fst item) (snd item)
                    <> []) items ->
          List.length items <= List.length (requests evs))
      /\ (pause_total evs
          <= 300 * Z.of_nat (List.length (requests evs))
             + 500 * Z.of_nat (List.length items))%Z
      /\ (forall n,
             In n (dict_keys (today_open_data st'))
             <-> In n (dict_keys (today_open_data st)) \/ usable_in n evs)
      /\ (NoDup (dict_keys items) ->
          forall n,
            In n (exhausted evs)
            <-> In n (dict_keys items) /\ ~ usable_in n evs).
Proof.
  induction items as [|[index_name symbol] items IH]; intros st st'.
  - exists []. subst st'. cbn [fetch_indices]. rewrite app_nil_r.
    split; [reflexivity |]. split; [intros n c o []|].
    split; [simpl; lia |]. split; [simpl; lia |]. split; [simpl; lia |].
    split.
    + intros n. split; [auto |]. intros [H|(c & o & [] & _)]. exact H.
    + intros _ n. simpl. tauto.
  - destruct (fetch_indices_step alternatives index_name symbol items st)
      as (st2 & evs1 & attempted & rest & outs & ok & Heq & Hlog & Hreq & Hc
          & Hlen & Hne & Hex & Hp & Hk & Hok).
    subst st'. rewrite Heq.
    destruct (IH st2)
      as (evs2 & Hl2 & Hconf & Hup & Hlow & Hpause & Hiff & Hexh).
    pose proof (logged_length index_name _ _ Hlen) as Hll.
    rewrite <- Hreq in Hll.
    assert (Hname : forall n c o, In (n, c, o) (requests evs1) ->
               n = index_name /\ In c attempted /\ In o outs).
    { intros n c o Hin. rewrite Hreq in Hin. apply logged_in in Hin as [-> Hin].
      split; [reflexivity |].
      split; [eapply in_combine_l | eapply in_combine_r]; eassumption. }
    assert (Hfirst : ok = true -> usable_in index_name evs1).
    { intros ->. destruct Hok as (c & o & Hin & Htwo). exists c, o.
      split; [| assumption]. rewrite Hreq. unfold logged.
      apply in_map_iff. now exists (c, o). }
    assert (Hnone : ok = false -> forall n, ~ usable_in n evs1).
    { intros -> n (c & o & Hin & Htwo).
      apply Hname in Hin as (_ & _ & Hin).
      rewrite Forall_forall in Hok. exact (Hok o Hin Htwo). }
    assert (Hsplit : forall n, usable_in n (evs1 ++ evs2)
                               <-> usable_in n evs1 \/ usable_in n evs2).
    { intros n. unfold usable_in. split.
      - intros (c & o & Hin & Htwo). rewrite requests_app in Hin.
        apply in_app_or in Hin as [Hin|Hin]; [left | right]; now exists c, o.
      - intros [(c & o & Hin & Htwo)|(c & o & Hin & Htwo)]; exists c, o;
          rewrite requests_app; split; auto; apply in_or_app; auto. }
    assert (Hkeys : forall n, In n (dict_keys (today_open_data st2))
                              <-> (ok = true /\ n = index_name)
                                  \/ In n (dict_keys (today_open_data st))).
    { intros n. rewrite Hk. destruct ok.
      - rewrite dict_keys_set_in. unfold dict_keys at 1. rewrite map_map.
        simpl. fold (dict_keys (today_open_data st)). intuition.
      - intuition discriminate. }
    exists (evs1 ++ evs2).
    split; [rewrite Hl2, Hlog, app_assoc; reflexivity |].
    split.
    { intros n c o Hin. rewrite requests_app in Hin.
      apply in_app_or in Hin as [Hin|Hin].
      - apply Hname in Hin as (-> & Hin & _). exists symbol.
        split; [now left |]. rewrite Hc. apply in_or_app. now left.
      - destruct (Hconf n c o Hin) as (sym & Hi & Hs). exists sym.
        split; [now right | assumption]. }
    assert (Htotal : total_candidates alternatives
                       ((index_name, symbol) :: items)
                     = List.length attempted + List.length rest
                       + total_candidates alternatives items).
    { unfold total_candidates. simpl. now rewrite Hc, length_app. }
    rewrite requests_app, length_app, Hll, Htotal.
    split; [lia |].
    split.
    { intros Hall. inversion Hall as [|? ? Hhead Htail]. subst.
      specialize (Hlow Htail). simpl in Hhead.
      specialize (Hne Hhead). destruct attempted; [congruence |].
      simpl. lia. }
    split.
    { rewrite pause_total_app. cbn [List.length]. lia. }
    split.
    { intros n. rewrite Hiff, Hkeys, Hsplit. split.
      - intros [[[Hok' ->]|Hin]|Hu]; auto.
      - intros [Hin|[Hu|Hu]]; auto.
        destruct ok; [| now elim (Hnone eq_refl n)].
        destruct Hu as (c & o & Hin & _).
        apply Hname in Hin as (-> & _). auto. }
    intros Hnd n. simpl in Hnd. inversion Hnd as [|? ? Hnotin Hnd']. subst.
    rewrite exhausted_app, in_app_iff, (Hexh Hnd'), Hex, Hsplit.
    assert (Hlater : forall m, usable_in m evs2 -> In m (dict_keys items)).
    { intros m (c & o & Hin & _).
      destruct (Hconf m c o Hin) as (sym & Hi & _).
      unfold dict_keys. apply in_map_iff. now exists (m, sym). }
    assert (Hhere : forall m, usable_in m evs1 -> m = index_name).
    { intros m (c & o & Hin & _). now apply Hname in Hin as (-> & _). }
    simpl. split.
    + intros [Hin|[Hin Hno]].
      * destruct ok; [contradiction |]. destruct Hin as [<-|[]].
        split; [now left |].
        intros [Hu|Hu]; [now apply (Hnone eq_refl index_name) |].
        apply Hnotin. now apply Hlater.
      * split; [now right |].
        intros [Hu|Hu]; [| contradiction].
        apply Hhere in Hu. subst. contradiction.
    + intros [[<-|Hin] Hno].
      * left. destruct ok; [| now left].
        elim Hno. left. now apply Hfirst.
      * right. split; [assumption |]. intros Hu. apply Hno. now right.
Qed.

End FetchSummary.

Section FetchProperties.
Context {R : Runtime}.

Lemma fetch_all_summary (alternatives : dict (list string))
      (items : dict string) (w : world) :
  let st := fetch_all alternatives items w in
  (forall n c o,
      In (n, c, o) (requests (fs_log st)) ->
      exists symbol,
        In (n, symbol) items
        /\ In c (symbols_to_try_for alternatives n symbol))
  /\ List.length (requests (fs_log st)) <= total_candidates alternatives items
  /\ (Forall (fun item =>
                symbols_to_try_for alternatives (fst item) (snd item) <> [])
             items ->
      List.length items <= List.length (requests (fs_log st)))
  /\ (pause_total (fs_log st)
      <= 300 * Z.of_nat (List.length (requests (fs_log st)))
         + 500 * Z.of_nat (List.length items))%Z
  /\ (forall n,
         In n (dict_keys (today_open_data st))
         <-> usable_in n (fs_log st))
  /\ (NoDup (dict_keys items) ->
      forall n,
        In n (exhausted (fs_log st))
        <-> In n (dict_keys items) /\ ~ usable_in n (fs_log st)).
Proof.
  intros st.
  destruct (fetch_indices_summary alternatives items (initial_state w))
    as (evs & Hl & Hconf & Hup & Hlow & Hpause & Hiff & Hexh).
  fold (fetch_all alternatives items w) in Hl, Hiff. fold st in Hl, Hiff.
  simpl in Hl. rewrite Hl.
  repeat (split; [assumption |]).
  split; [| assumption].
  intros n. rewrite Hiff. simpl. tauto.
Qed.

(** X7: the fetch phase requests, for an instrument, only symbols of the
    candidate list of that instrument: the alternatives when the
    instrument has some, else its one symbol. *)
Theorem X7_only_configured_symbols_requested
        (alternatives : dict (list string)) (items : dict string) (w : world)
        (index_name attempt_symbol : string) (o : get_outcome) :
  In (index_name, attempt_symbol, o)
     (requests (fs_log (fetch_all alternatives items w))) ->
  exists symbol,
    In (index_name, symbol) items
    /\ In attempt_symbol
          (symbols_to_try_for alternatives index_name symbol).
Proof.
  destruct (fetch_all_summary alternatives items w) as (Hconf & _).
  apply Hconf.
Qed.

(** X8: the fetch phase calls [session.get] at most once per candidate
    symbol of the table, whatever the calls return. *)
Theorem X8_requests_bounded_by_candidates
        (alternatives : dict (list string)) (items : dict string) (w : world) :
  List.length (requests (fs_log (fetch_all alternatives items w)))
  <= total_candidates alternatives items.
Proof.
  destruct (fetch_all_summary alternatives items w) as (_ & Hup & _).
  exact Hup.
Qed.

(** X9: with the instruments and alternatives of the source, a fetch calls
    [session.get] at least 4 and at most 7 times, and its own calls of
    [time.sleep] add up to at most 4.1 seconds, whatever the calls of
    [session.get] return. *)
Theorem X9_fetch_costs_of_the_shipped_table (w : world) :
  let log := fs_log (get_simplified_stock_data w) in
  4 <= List.length (requests log) <= 7
  /\ (pause_total log <= 4100)%Z.
Proof.
  intros log.
  destruct (fetch_all_summary alternative_symbols symbols w)
    as (_ & Hup & Hlow & Hpause & _).
  fold (get_simplified_stock_data w) in Hup, Hlow, Hpause.
  fold log in Hup, Hlow, Hpause.
  assert (Hne : Forall (fun item =>
                          symbols_to_try_for alternative_symbols
                                             (fst item) (snd item) <> [])
                       symbols)
    by (repeat constructor; discriminate).
  specialize (Hlow Hne).
  change (total_candidates alternative_symbols symbols) with 7 in Hup.
  change (List.length symbols) with 4 in Hlow, Hpause.
  split; lia.
Qed.

(** X10: after the fetch phase an instrument has a record exactly when one
    of the requests made for it yielded two bars or more; the same holds of
    both maps. *)
Theorem X10_record_iff_two_bars (alternatives : dict (list string))
        (items : dict string) (w : world) (index_name : string) :
  let st := fetch_all alternatives items w in
  (In index_name (dict_keys (today_open_data st))
   <-> exists c o,
       In (index_name, c, o) (requests (fs_log st)) /\ two_bars o)
  /\ (In index_name (dict_keys (yesterday_data st))
      <-> exists c o,
          In (index_name, c, o) (requests (fs_log st)) /\ two_bars o).
Proof.
  intros st.
  destruct (fetch_all_summary alternatives items w)
    as (_ & _ & _ & _ & Hiff & _).
  destruct (fetch_indices_paired alternatives items (initial_state w)
              (initial_paired w)) as [Hk _].
  fold (fetch_all alternatives items w) in Hk. fold st in Hk, Hiff.
  split; [| rewrite <- Hk]; apply Hiff.
Qed.

(** X11: when the table names each instrument once, the fetch phase
    reports "failed with all available symbols" for exactly the instruments
    of the table that are left without a record. *)
Theorem X11_failure_logged_iff_no_record
        (alternatives : dict (list string)) (items : dict string) (w : world) :
  NoDup (dict_keys items) ->
  let st := fetch_all alternatives items w in
  forall index_name,
    In index_name (exhausted (fs_log st))
    <-> In index_name (dict_keys items)
        /\ ~ In index_name (dict_keys (today_open_data st)).
Proof.
  intros Hnd st index_name.
  destruct (fetch_all_summary alternatives items w)
    as (_ & _ & _ & _ & Hiff & Hexh).
  fold st in Hiff, Hexh. rewrite (Hexh Hnd), Hiff. reflexivity.
Qed.

(** X12: the calls of [time.sleep] of the fetch phase add up to at most
    0.3 s per call of [session.get] plus 0.5 s per instrument of the
    table. *)
Theorem X12_fetch_pauses_bounded (alternatives : dict (list string))
        (items : dict string) (w : world) :
  let log := fs_log (fetch_all alternatives items w) in
  (pause_total log
   <= 300 * Z.of_nat (List.length (requests log))
      + 500 * Z.of_nat (List.length items))%Z.
Proof.
  destruct (fetch_all_summary alternatives items w)
    as (_ & _ & _ & Hpause & _).
  exact Hpause.
Qed.

End FetchProperties.

(** *** The notifier with any bound, and its waits *)

Lemma wait_after_bound (attempt_number : nat) (o : post_outcome) :
  wait_after attempt_number o <= Nat.max 3 (2 * attempt_number).
Proof.
  unfold wait_after, failure_of.
  destruct o as [status_code| | |];
    [destruct (status_code =? 200)%Z |..]; cbn [backoff]; lia.
Qed.

Section SendingMore.
Context {R : Runtime}.

(** X13: for every value of [max_retries], a send calls [session.post] at
    most [max_retries] times, one call after the other, with a call of
    [time.sleep] after every call but the last one; it returns [True]
    exactly when its last call is the first one answered with status 200,
    and [False] after exactly [max_retries] failed calls, so with
    [max_retries = 0] it returns [False] without calling. *)
Theorem X13_send_with_any_bound (message : string) (max_retries : nat)
        (w : world) :
  let r := send_telegram_message_with message max_retries w in
  let outs := outcomes (snd r) in
  (exists rest, post_answers w message max_retries = outs ++ rest)
  /\ snd r = trace 0 outs
  /\ List.length outs <= max_retries
  /\ if fst (fst r)
     then exists pre, outs = pre ++ [PostResponse 200] /\ Forall failed pre
     else List.length outs = max_retries /\ Forall failed outs.
Proof.
  intros r outs.
  destruct (send_attempts_spec message max_retries 0 w [])
    as (outs' & rest & Ha & Hl & _ & Hres).
  change (send_attempts message (0 + max_retries) (seq 0 max_retries) w [])
    with r in Hl, Hres.
  simpl in Hl.
  assert (Ho : outs = outs')
    by (unfold outs; rewrite Hl; apply outcomes_trace).
  rewrite Ho. clear Ho outs.
  pose proof (post_answers_length message max_retries w) as Hlen.
  rewrite Ha, length_app in Hlen.
  split; [now exists rest |]. split; [assumption |]. split; [lia |].
  destruct (fst (fst r)); [assumption |].
  destruct Hres as [-> Hall]. simpl in Hlen. split; [lia | assumption].
Qed.

(** X14: a send with the default bound calls [time.sleep] once less than
    it calls [session.post], for at most 7 seconds in all, also when it
    succeeds. *)
Theorem X14_send_waits_bounded (message : string) (w : world) :
  let log := snd (send_telegram_message message w) in
  List.length (waits log) = List.length (outcomes log) - 1
  /\ list_sum (waits log) <= 7.
Proof.
  intros log.
  destruct (send_telegram_message_spec message w)
    as (outs & rest & Ha & Hl & Hne & _).
  fold log in Hl. rewrite Hl.
  pose proof (post_answers_length message 3 w) as Hlen.
  rewrite Ha, length_app in Hlen.
  pose proof (wait_after_bound 1) as H1.
  pose proof (wait_after_bound 2) as H2.
  destruct outs as [|o1 [|o2 [|o3 [|o4 outs]]]]; simpl in Hlen;
    try congruence; try lia; unfold list_sum;
    cbn [trace waits outcomes List.length fold_right].
  - lia.
  - specialize (H1 o1). lia.
  - specialize (H1 o1). specialize (H2 o2). lia.
Qed.

End SendingMore.

(** *** The whole run *)

Section PipelineProperties.
Context {R : Runtime}.

Lemma shipped_requests_bound (w : world) :
  List.length (requests (fs_log (get_simplified_stock_data w))) <= 7.
Proof.
  destruct (fetch_all_summary alternative_symbols symbols w) as (_ & Hup & _).
  exact Hup.
Qed.

Lemma report_text_not_fixed (current_time : string)
      (today : dict today_record) (yesterday : dict yesterday_record) :
  report_text current_time today yesterday <> error_message
  /\ report_text current_time today yesterday <> no_data_message.
Proof.
  unfold report_text, greeting, error_message, no_data_message,
    icon_wave, icon_cross.
  split; intros H; simpl in H; discriminate.
Qed.

Lemma error_not_no_data : error_message <> no_data_message.
Proof. intros H. vm_compute in H. discriminate. Qed.

Lemma deliver_fetched_message (st : fetch_state) :
  sent_message (run_delivery (deliver_fetched st))
  = match today_open_data st, yesterday_data st with
    | [], [] => error_message
    | _, _ => report_text (datetime_now (fs_world st))
                          (today_open_data st) (yesterday_data st)
    end
  /\ run_fetched (deliver_fetched st) = st
  /\ 1 <= List.length (outcomes (sent_log (run_delivery (deliver_fetched st))))
     <= 3.
Proof.
  unfold deliver_fetched.
  match goal with
  | |- context [send_telegram_message ?m ?w] =>
      pose proof (send_telegram_message_spec m w) as Hs;
      pose proof (post_answers_length m 3 w) as Hlen;
      destruct (send_telegram_message m w) as [[ok w1] log]
  end.
  simpl in *. destruct Hs as (outs & rest & Ha & -> & Hne & _).
  rewrite Ha, length_app in Hlen. rewrite outcomes_trace.
  split; [| split; [reflexivity |]].
  - unfold format_simplified_message.
    destruct (today_open_data st), (yesterday_data st); reflexivity.
  - destruct outs; [congruence | simpl in *; lia].
Qed.

Lemma keys_nil {V} (d : dict V) : dict_keys d = [] -> d = [].
Proof. destruct d; [reflexivity | discriminate]. Qed.

(** X15: after a fetch, the text handed to the sender is the error message
    exactly when no request of the fetch yielded two bars; otherwise it is
    the report.  The fixed "unable to fetch" text of the report builder is
    never sent. *)
Theorem X15_error_message_iff_nothing_fetched
        (alternatives : dict (list string)) (items : dict string) (w : world) :
  let st := fetch_all alternatives items w in
  let message := sent_message (run_delivery (deliver_fetched st)) in
  (message = error_message
   <-> forall n c o, In (n, c, o) (requests (fs_log st)) -> ~ two_bars o)
  /\ (message = error_message
      \/ message = report_text (datetime_now (fs_world st))
                               (today_open_data st) (yesterday_data st))
  /\ message <> no_data_message.
Proof.
  intros st message.
  destruct (deliver_fetched_message st) as (Hm & _). fold message in Hm.
  destruct (fetch_all_summary alternatives items w)
    as (_ & _ & _ & _ & Hiff & _).
  destruct (fetch_indices_paired alternatives items (initial_state w)
              (initial_paired w)) as [Hk _].
  fold (fetch_all alternatives items w) in Hk. fold st in Hk, Hiff.
  destruct (report_text_not_fixed (datetime_now (fs_world st))
              (today_open_data st) (yesterday_data st)) as [Hne Hnd].
  destruct (today_open_data st) as [|[n t] today] eqn:Et.
  - symmetry in Hk. apply keys_nil in Hk. rewrite Hk in Hm. rewrite Hm.
    split; [| split; [now left | apply error_not_no_data]].
    split; [| reflexivity].
    intros _ n c o Hin Htwo.
    apply (proj2 (Hiff n)). now exists c, o.
  - rewrite <- Et in *.
    assert (Hr : message = report_text (datetime_now (fs_world st))
                             (today_open_data st) (yesterday_data st))
      by (rewrite Hm, Et; reflexivity).
    rewrite Hr. split; [| split; [now right | assumption]].
    split; [intros H; now elim Hne |].
    intros Hnone. exfalso.
    assert (Hin : In n (dict_keys (today_open_data st)))
      by (rewrite Et; now left).
    apply Hiff in Hin as (c & o & Hin & Htwo). exact (Hnone n c o Hin Htwo).
Qed.

(** X16: the two maps of a fetch are empty together, name the same
    instruments as missing, and when they are not empty the dates shown in
    the two headers are those of the first and of the second bar of one
    response, the one that gave the first instrument of the maps. *)
Theorem X16_report_of_a_fetch
        (alternatives : dict (list string)) (items : dict string) (w : world) :
  let st := fetch_all alternatives items w in
  missing_from (today_open_data st) = missing_from (yesterday_data st)
  /\ match today_open_data st with
     | [] => yesterday_data st = []
     | (index_name, _) :: _ =>
         exists c o today yesterday more,
           In (index_name, c, o) (requests (fs_log st))
           /\ parse_attempt o = Bars (today :: yesterday :: more)
           /\ today_date_of (today_open_data st) = bar_date today
           /\ yesterday_date_of (yesterday_data st) = bar_date yesterday
     end.
Proof.
  intros st.
  destruct (fetch_indices_paired alternatives items (initial_state w)
              (initial_paired w)) as [Hk Hp].
  fold (fetch_all alternatives items w) in Hk, Hp. fold st in Hk, Hp.
  split.
  - unfold missing_from, dict_has. now rewrite Hk.
  - destruct (today_open_data st) as [|[n t] today] eqn:Et.
    + symmetry in Hk. now apply keys_nil in Hk.
    + destruct (Hp n t) as (c & o & tb & yb & more & Hin & Hparse & -> & Hy).
      { simpl. now rewrite String.eqb_refl. }
      exists c, o, tb, yb, more.
      split; [assumption |]. split; [assumption |]. split; [reflexivity |].
      destruct (yesterday_data st) as [|[n' y] yesterday];
        [discriminate |].
      simpl in Hk. injection Hk as <- _.
      simpl in Hy. rewrite String.eqb_refl in Hy. injection Hy as ->.
      reflexivity.
Qed.

(** X17: when the three posts of the connection test all fail, [main] makes
    no request to the quote endpoint and no other post. *)
Theorem X17_failed_test_skips_the_fetch (w : world) :
  Forall failed (post_answers w test_message 3) ->
  let r := main w in
  main_report r = None
  /\ run_requests r = []
  /\ run_posts r = post_answers w test_message 3.
Proof.
  intros Hall r. subst r. unfold main, test_telegram_connection.
  pose proof (send_telegram_message_spec test_message w) as Hs.
  destruct (send_telegram_message test_message w) as [[ok w1] log].
  cbn [fst snd] in Hs. destruct Hs as (outs & rest & Ha & -> & Hne & Hres).
  destruct ok.
  - exfalso. destruct Hres as (pre & -> & _).
    rewrite Ha, <- app_assoc in Hall.
    apply Forall_app in Hall as [_ Hall].
    inversion Hall as [|? ? H200 _]. now apply not_failed_200.
  - destruct Hres as [-> _]. rewrite app_nil_r in Ha.
    unfold run_requests, run_posts. simpl.
    now rewrite outcomes_trace, app_nil_r.
Qed.

(** X18: a run of [main] fetches exactly when one of the calls of
    [session.post] of the connection test is answered with status 200, and
    in all it makes between 1 and 6 calls of [session.post] and at most 7
    calls of [session.get]. *)
Theorem X18_run_is_bounded (w : world) :
  let r := main w in
  (main_report r = None <-> Forall failed (post_answers w test_message 3))
  /\ 1 <= List.length (run_posts r) <= 6
  /\ List.length (run_requests r) <= 7.
Proof.
  intros r. subst r. unfold main, test_telegram_connection.
  pose proof (send_telegram_message_spec test_message w) as Hs.
  pose proof (post_answers_length test_message 3 w) as Hlen.
  destruct (send_telegram_message test_message w) as [[ok w1] log].
  cbn [fst snd] in Hs. destruct Hs as (outs & rest & Ha & -> & Hne & Hres).
  rewrite Ha in *. rewrite length_app in Hlen.
  assert (Hout : 1 <= List.length outs <= 3)
    by (destruct outs; [congruence | simpl in *; lia]).
  destruct ok.
  - destruct (deliver_fetched_message (get_simplified_stock_data w1))
      as (_ & Hf & Hposts).
    pose proof (shipped_requests_bound w1) as Hreq.
    unfold run_posts, run_requests, get_and_send_simplified_stock_data.
    cbn [main_test main_report sent_log].
    rewrite outcomes_trace, length_app, Hf.
    split; [| split; [lia | exact Hreq]].
    split; [discriminate |].
    intros Hall. exfalso. destruct Hres as (pre & -> & _).
    rewrite <- app_assoc in Hall.
    apply Forall_app in Hall as [_ Hall].
    inversion Hall as [|? ? H200 _]. now apply not_failed_200.
  - destruct Hres as [-> Hall]. rewrite app_nil_r in *.
    unfold run_posts, run_requests.
    cbn [main_test main_report sent_log List.length].
    rewrite outcomes_trace, app_nil_r.
    split; [| split; [lia | lia]].
    split; [intros _; assumption | reflexivity].
Qed.

End PipelineProperties.

(** *** The further properties at sample inputs *)

Lemma X2_witness :
  let l := [ {| bar_date := "2024-01-03"; bar_open := Some 21661.1%Q;
                bar_close := Some 21517.35%Q; bar_high := None;
                bar_low := None |};
             {| bar_date := "2024-01-02"; bar_open := Some 21751.35%Q;
                bar_close := Some 21665.8%Q; bar_high := None;
                bar_low := None |};
             {| bar_date := "2024-01-02"; bar_open := Some 1%Q;
                bar_close := Some 2%Q; bar_high := None;
                bar_low := None |} ] in
  sort_desc l = l /\ sort_desc (sort_desc l) = sort_desc l.
Proof.
  intros l. apply X2_sort_keeps_sorted_list.
  simpl. repeat split; repeat constructor.
Defined.

Lemma X3_witness :
  exists today yesterday more,
    parse_attempt sample_ok = Bars (today :: yesterday :: more)
    /\ Forall (fun b => date_key_le b today) (yesterday :: more)
    /\ Forall (fun b => date_key_le b yesterday) more.
Proof.
  do 3 eexists. split.
  - vm_compute. reflexivity.
  - apply (@X3_today_has_greatest_date_string scripted_runtime sample_ok).
    vm_compute. reflexivity.
Defined.


Lemma X7_witness :
  exists symbol,
    In ("NIFTY MID SELECT", symbol) symbols
    /\ In "^NSEMDCP50"
          (symbols_to_try_for alternative_symbols "NIFTY MID SELECT" symbol).
Proof.
  apply (@X7_only_configured_symbols_requested scripted_runtime
           alternative_symbols symbols
           (sample_script [GetRaises; GetRaises; GetRaises; sample_ok] [])
           "NIFTY MID SELECT" "^NSEMDCP50" sample_ok).
  vm_compute. right. right. right. left. reflexivity.
Defined.

Lemma X11_witness :
  let st := get_simplified_stock_data (sample_script [sample_ok] []) in
  (In "NIFTY BANK" (exhausted (fs_log st))
   <-> In "NIFTY BANK" (dict_keys symbols)
       /\ ~ In "NIFTY BANK" (dict_keys (today_open_data st)))
  /\ (In "NIFTY 50" (exhausted (fs_log st))
      <-> In "NIFTY 50" (dict_keys symbols)
          /\ ~ In "NIFTY 50" (dict_keys (today_open_data st))).
Proof.
  assert (Hnd : NoDup (dict_keys symbols))
    by (repeat (constructor; [simpl; intuition discriminate |]); constructor).
  split;
    apply (@X11_failure_logged_iff_no_record scripted_runtime
             alternative_symbols symbols (sample_script [sample_ok] []) Hnd).
Defined.

Lemma X17_witness :
  let w := sample_script [sample_ok] [PostTimeout; PostResponse 500;
                                      PostConnectionError; PostResponse 200] in
  let r := main w in
  main_report r = None
  /\ run_requests r = []
  /\ run_posts r = post_answers w test_message 3.
Proof.
  apply (@X17_failed_test_skips_the_fetch scripted_runtime).
  vm_compute. repeat constructor; discriminate.
Defined.

(** A run in which the test succeeds at its second post and one instrument
    is fetched. *)
Example run_with_one_instrument :
  let r := main (sample_script [sample_ok]
                               [PostTimeout; PostResponse 200;
                                PostResponse 200]) in
  run_posts r = [PostTimeout; PostResponse 200; PostResponse 200]
  /\ List.length (run_requests r) = 7
  /\ option_map (fun run => sent_ok (run_delivery run)) (main_report r)
     = Some true
  /\ option_map (fun run =>
                   occurs "*Today's Opening (2024-01-03)*"
                          (sent_message (run_delivery run)))
                (main_report r)
     = Some true.
Proof. repeat split; vm_compute; reflexivity. Qed.
